(** * Gesture pipeline of the holiday-tree scene

    A shallow embedding of the hand-gesture classifier and the debounced state
    controller ([HandController.tsx]), of the photo picker ([PhotoCloud.tsx])
    and of the state they share through [Scene.tsx] and [App.tsx].

    JavaScript numbers are IEEE 754 binary64 values, and so are Rocq's
    primitive floats: every arithmetic operation and comparison of the source
    is the primitive one, with its infinities, signed zeros and NaN.
    [Date.now()] is an integer number of milliseconds and is kept in [Z]
    (the additions of the source are exact below 2^53). *)

From Stdlib Require Import ZArith List Bool Lia Floats.
Import ListNotations.

Set Warnings "-inexact-float".

(** The source throws a [TypeError] when it reads a field of [undefined]
    (an index past the end of an array).  Such code lives in [option]:
    [None] is the uncaught exception. *)
Notation "x <- e ;; k" := (match e with Some x => k | None => None end)
  (at level 61, e at next level, right associativity).

(** ** Number operations of the host language *)
Module JS.

(** [Math.hypot] of two arguments.  ECMAScript fixes the results on
    infinities, NaN and zeros and leaves the rounding of the other cases to
    the engine.  This is the computation of V8: the absolute values (0 in
    place of a NaN) and their maximum, then the squares of the values divided
    by the maximum, added with Kahan's compensation, and the square root of
    the sum times the maximum. *)
Definition hypot (a b : float) : float :=
  let oneArgIsNaN := is_nan a || is_nan b in
  let absA := if is_nan a then 0%float else abs a in
  let absB := if is_nan b then 0%float else abs b in
  let max0 := if (0 <? absA)%float then absA else 0%float in
  let max := if (max0 <? absB)%float then absB else max0 in
  if (max =? infinity)%float then infinity
  else if oneArgIsNaN then nan
  else if (max =? 0)%float then 0%float
  else
    let n0 := (absA / max)%float in
    let summand0 := (n0 * n0 - 0)%float in
    let sum0 := (0 + summand0)%float in
    let compensation := (sum0 - 0 - summand0)%float in
    let n1 := (absB / max)%float in
    let summand1 := (n1 * n1 - compensation)%float in
    let sum := (sum0 + summand1)%float in
    (sqrt sum * max)%float.

(** Truthiness of a number: everything but [+0], [-0] and [NaN]. *)
Definition truthy (v : float) : bool := negb (is_zero v || is_nan v).

(** [v || d] on numbers. *)
Definition or_else (v d : float) : float := if truthy v then v else d.

(** [a !== b] on numbers. *)
Definition strict_neq (a b : float) : bool := negb (a =? b)%float.

End JS.

(** ** The order of binary64 values

    The primitive comparisons are specified by [SFcompare] on the decoded
    value.  On values that are not NaN it is the lexicographic order of a
    triple: the class (negative infinity, negative, zero, positive, positive
    infinity), then the exponent, then the mantissa, the last two negated for
    negative numbers. *)
Module FloatOrder.

Definition sf_nan (f : spec_float) : bool :=
  match f with S754_nan => true | _ => false end.

Definition rank (f : spec_float) : Z * Z * Z :=
  match f with
  | S754_nan => (0, 0, 0)
  | S754_zero _ => (0, 0, 0)
  | S754_infinity true => (-2, 0, 0)
  | S754_infinity false => (2, 0, 0)
  | S754_finite true m e => (-1, - e, Z.neg m)
  | S754_finite false m e => (1, e, Z.pos m)
  end%Z.

Definition lex (p q : Z * Z * Z) : comparison :=
  let '(a1, b1, c1) := p in
  let '(a2, b2, c2) := q in
  match (a1 ?= a2)%Z with
  | Eq => match (b1 ?= b2)%Z with Eq => (c1 ?= c2)%Z | r => r end
  | r => r
  end.

End FloatOrder.

(** ** types.ts *)

Inductive AppState := CHAOS | FORMED | PHOTO_VIEW.

(** A point of the camera frame: a landmark of the detector (whose [z] the
    code never reads) or the published pointer position. *)
Record Vec2 := mkVec2 { x : float; y : float }.

Record HandGesture := mkGesture {
  isFist : bool;
  isOpen : bool;
  isPinch : bool;
  position : Vec2
}.

Record Vec3 := mkVec3 { vx : float; vy : float; vz : float }.

(** [THREE.Ray]. *)
Record Ray := mkRay { origin : Vec3; direction : Vec3 }.

(** The camera of the scene as the controller uses it:
    [raycaster.setFromCamera(new Vector2(ndcX, ndcY), camera)] turns a point
    in normalized device coordinates into a world-space ray. *)
Definition Camera := float -> float -> Ray.

(** ** HandController.tsx: the classifier *)
Module HandController.

Definition Landmarks := list Vec2.

(** [landmarks[idx]], with a read of a field of [undefined] as [None]. *)
Definition at_ (landmarks : Landmarks) (idx : nat) : option Vec2 :=
  nth_error landmarks idx.

Definition getDist (landmarks : Landmarks) (idx : nat) : option float :=
  wrist <- at_ landmarks 0 ;;
  p <- at_ landmarks idx ;;
  Some (JS.hypot (x p - x wrist) (y p - y wrist)).

Definition getRatio (landmarks : Landmarks) (tipIdx mcpIdx : nat) : option float :=
  t <- getDist landmarks tipIdx ;;
  m <- getDist landmarks mcpIdx ;;
  Some (t / m)%float.

Definition indexRatio l := getRatio l 8 5.
Definition middleRatio l := getRatio l 12 9.
Definition ringRatio l := getRatio l 16 13.
Definition pinkyRatio l := getRatio l 20 17.

Definition avgRatio (l : Landmarks) : option float :=
  i <- indexRatio l ;; m <- middleRatio l ;; r <- ringRatio l ;; p <- pinkyRatio l ;;
  Some ((i + m + r + p) / 4)%float.

Definition nonIndexRatio (l : Landmarks) : option float :=
  m <- middleRatio l ;; r <- ringRatio l ;; p <- pinkyRatio l ;;
  Some ((m + r + p) / 3)%float.

(** Distance between two landmarks, as the three [Math.hypot] calls on
    landmark pairs compute it. *)
Definition span (l : Landmarks) (i j : nat) : option float :=
  a <- at_ l i ;; b <- at_ l j ;;
  Some (JS.hypot (x a - x b) (y a - y b)).

Definition pinchDist l := span l 4 8.

Definition isPinchCandidate (l : Landmarks) : option bool :=
  d <- pinchDist l ;; Some (d <? 0.08)%float.

Definition palmWidth l := span l 5 17.
Definition spreadWidth l := span l 8 20.

Definition spreadFactor (l : Landmarks) : option float :=
  pw <- palmWidth l ;; sw <- spreadWidth l ;;
  Some (sw / JS.or_else pw 1)%float.

(** The three flags, by the [if / else if / else] of the source. *)
Definition flags (avg nonIndex spread : float) (cand : bool) : bool * bool * bool :=
  if (avg <? 1.35)%float then (true, false, false)
  else if cand && (1.2 <? nonIndex)%float then (false, true, false)
  else if (1.5 <? avg)%float || ((1.6 <? spread)%float && (1.25 <? avg)%float)
       then (false, false, true)
       else (false, false, false).

Definition midpoint (a b : Vec2) : Vec2 :=
  mkVec2 ((x a + x b) / 2) ((y a + y b) / 2).

(** [(rawX, rawY)]. *)
Definition rawPosition (l : Landmarks) (pinch : bool) : option Vec2 :=
  d <- pinchDist l ;;
  if pinch || (d <? 0.15)%float
  then (t <- at_ l 4 ;; i <- at_ l 8 ;; Some (midpoint t i))
  else (a <- at_ l 5 ;; b <- at_ l 17 ;; Some (midpoint a b)).

(** The gesture published by [setGesture] for a detected hand. *)
Definition classify (l : Landmarks) : option HandGesture :=
  avg <- avgRatio l ;;
  nonIndex <- nonIndexRatio l ;;
  cand <- isPinchCandidate l ;;
  spread <- spreadFactor l ;;
  let '(fist, pinch, open) := flags avg nonIndex spread cand in
  raw <- rawPosition l pinch ;;
  Some (mkGesture fist open pinch (mkVec2 (1 - x raw) (y raw))).

(** The gesture published when no hand is detected. *)
Definition noHand : HandGesture :=
  mkGesture false false false (mkVec2 0.5 0.5).

(** *** The controller *)

(** The [useRef] cells of the component. *)
Record Refs := mkRefs {
  lastVideoTimeRef : float;
  gestureTimeoutRef : Z;
  wasPinchingRef : bool
}.

Definition initialRefs : Refs := mkRefs (-1) 0 false.

(** What one run of the frame callback asks of its props: the gesture it
    publishes, the ray it hands to [onPinch], the state it passes to
    [setAppState].  Each is called at most once per run. *)
Record Calls := mkCalls {
  setGesture : option HandGesture;
  onPinch : option Ray;
  setAppState : option AppState
}.

Definition noCalls : Calls := mkCalls None None None.

Definition ndcX (g : HandGesture) : float := (x (position g) * 2 - 1)%float.
Definition ndcY (g : HandGesture) : float := (- (y (position g) * 2) + 1)%float.

(** [// PINCH ACTION] and the update of [wasPinchingRef] after it. *)
Definition pinchAction (camera : Camera) (g : HandGesture) (now : Z) (r : Refs)
  : Refs * option Ray :=
  let ray := if isPinch g && negb (wasPinchingRef r)
             then Some (camera (ndcX g) (ndcY g)) else None in
  let timeout := if isPinch g then (now + 500)%Z else gestureTimeoutRef r in
  (mkRefs (lastVideoTimeRef r) timeout (isPinch g), ray).

(** [// STATE SWITCHING (Fist/Open)]. *)
Definition stateSwitching (g : HandGesture) (now : Z) (appState : AppState) (r : Refs)
  : Refs * option AppState :=
  let switch (target : AppState) :=
    (mkRefs (lastVideoTimeRef r) (now + 1000)%Z (wasPinchingRef r), Some target) in
  if (gestureTimeoutRef r <? now)%Z && negb (isPinch g) then
    if isFist g then
      match appState with
      | CHAOS => switch FORMED
      | _ => (r, None)
      end
    else if isOpen g then
      match appState with
      | FORMED | PHOTO_VIEW => switch CHAOS
      | CHAOS => (r, None)
      end
    else (r, None)
  else (r, None).

(** The branch of a frame with a hand, from [setGesture] on. *)
Definition handDetected (camera : Camera) (g : HandGesture) (now : Z)
                        (appState : AppState) (r : Refs) : Refs * Calls :=
  let '(r1, ray) := pinchAction camera g now r in
  let '(r2, st) := stateSwitching g now appState r1 in
  (r2, mkCalls (Some g) ray st).

(** The [else] branch: no hand in the results. *)
Definition noHandDetected (r : Refs) : Refs * Calls :=
  (mkRefs (lastVideoTimeRef r) (gestureTimeoutRef r) false,
   mkCalls (Some noHand) None None).

(** One processed video frame, given the classifier's verdict for it
    ([None]: no hand). *)
Definition onVerdict (camera : Camera) (v : option HandGesture) (now : Z)
                     (appState : AppState) (r : Refs) : Refs * Calls :=
  match v with
  | Some g => handDetected camera g now appState r
  | None => noHandDetected r
  end.

(** The verdict of the classifier carried by the three flags. *)
Definition Fist (g : HandGesture) : Prop :=
  isFist g = true /\ isOpen g = false /\ isPinch g = false.
Definition Open (g : HandGesture) : Prop :=
  isFist g = false /\ isOpen g = true /\ isPinch g = false.
Definition notPinch (v : option HandGesture) : Prop :=
  match v with Some g => isPinch g = false | None => True end.

(** The controller on its own over processed frames, each given by its
    verdict and its time: the state passed to [setAppState] is the
    [appState] prop of the next frame. *)
Definition feed (camera : Camera) (s : AppState * Refs) (vn : option HandGesture * Z)
  : (AppState * Refs) * Calls :=
  let '(r, c) := onVerdict camera (fst vn) (snd vn) (fst s) (snd s) in
  ((match setAppState c with Some a => a | None => fst s end, r), c).

Fixpoint session (camera : Camera) (s : AppState * Refs)
                 (inputs : list (option HandGesture * Z)) : list Calls * (AppState * Refs) :=
  match inputs with
  | [] => ([], s)
  | vn :: rest =>
      let '(s', c) := feed camera s vn in
      let '(cs, final) := session camera s' rest in
      (c :: cs, final)
  end.

(** What a run of the frame callback reads from outside. *)
Record Input := mkInput {
  ready : bool;                 (* video && landmarker && readyState >= 2 *)
  currentTime : float;          (* video.currentTime *)
  results : list Landmarks;     (* results.landmarks, empty when undefined *)
  now : Z;                      (* Date.now() *)
  camera : Camera
}.

Definition setLastVideoTime (t : float) (r : Refs) : Refs :=
  mkRefs t (gestureTimeoutRef r) (wasPinchingRef r).

(** The callback given to [useFrame]. *)
Definition useFrame (i : Input) (appState : AppState) (r : Refs) : option (Refs * Calls) :=
  if negb (ready i) then Some (r, noCalls)
  else if JS.strict_neq (currentTime i) (lastVideoTimeRef r) then
    let r := setLastVideoTime (currentTime i) r in
    match results i with
    | landmarks :: _ =>
        g <- classify landmarks ;;
        Some (handDetected (camera i) g (now i) appState r)
    | [] => Some (noHandDetected r)
    end
  else Some (r, noCalls).

End HandController.

(** ** three.js: the one library function the picker calls *)
Module THREE.

Definition sub (a b : Vec3) : Vec3 :=
  mkVec3 (vx a - vx b) (vy a - vy b) (vz a - vz b).

Definition dot (a b : Vec3) : float :=
  (vx a * vx b + vy a * vy b + vz a * vz b)%float.

Definition addScaledVector (a v : Vec3) (s : float) : Vec3 :=
  mkVec3 (vx a + vx v * s) (vy a + vy v * s) (vz a + vz v * s).

Definition distanceToSquared (a v : Vec3) : float :=
  let d := sub a v in (vx d * vx d + vy d * vy d + vz d * vz d)%float.

(** [Ray.distanceSqToPoint]: the squared distance from a point to the ray,
    which is the distance to the origin for a point behind it. *)
Definition distanceSqToPoint (r : Ray) (point : Vec3) : float :=
  let directionDistance := dot (sub point (origin r)) (direction r) in
  if (directionDistance <? 0)%float then distanceToSquared (origin r) point
  else distanceToSquared (addScaledVector (origin r) (direction r) directionDistance) point.

End THREE.

(** ** PhotoCloud.tsx: the picker *)
Module PhotoCloud.

(** The [id]s of [photos]: the loop pushes [{ id: i, ... }] for [i] from 0
    to 11.  The other fields only place and draw the photo. *)
Definition photos : list nat := seq 0 12.

(** A child of the group with the id of its photo.  The group renders one
    child per photo, in the order of [photos], so the child at [idx] has id
    [photos[idx].id]. *)
Record Candidate := mkCandidate { cid : nat; worldPosition : Vec3 }.

Definition candidates (children : list Vec3) : list Candidate :=
  map (fun '(i, p) => mkCandidate i p) (combine photos children).

Definition distSq (ray : Ray) (c : Candidate) : float :=
  THREE.distanceSqToPoint ray (worldPosition c).

(** The body of the [forEach] over the children, on
    [(closestDist, closestId)]. *)
Definition visit (ray : Ray) (acc : float * Z) (c : Candidate) : float * Z :=
  let dist := distSq ray c in
  if (dist <? 5.0)%float then
    if (dist <? fst acc)%float then (dist, Z.of_nat (cid c)) else acc
  else acc.

Definition scan (ray : Ray) (cs : list Candidate) : float * Z :=
  fold_left (visit ray) cs (infinity, (-1)%Z).

(** [closestId] after the loop; [-1] is "no hit". *)
Definition closestId (ray : Ray) (cs : list Candidate) : Z := snd (scan ray cs).

Definition pick (ray : Ray) (cs : list Candidate) : option Z :=
  let i := closestId ray cs in
  if (i =? -1)%Z then None else Some i.

(** What the picking block of the frame callback leaves behind. *)
Record Outcome := mkOutcome {
  rayAfter : option Ray;             (* rayRef.current *)
  activePhotoId : option Z;          (* the state set by setActivePhotoId *)
  setAppState : option AppState      (* the call of setAppState, if any *)
}.

(** The picking block of the callback given to [useFrame], over the
    candidates of the frame. *)
Definition picking (appState : AppState) (rayRef : option Ray) (active : option Z)
                   (cs : list Candidate) : Outcome :=
  match rayRef, appState with
  | Some ray, (CHAOS | FORMED) =>
      match pick ray cs with
      | Some i => mkOutcome None (Some i) (Some PHOTO_VIEW)
      | None => mkOutcome rayRef active None
      end
  | None, (CHAOS | FORMED) => mkOutcome rayRef None None
  | _, PHOTO_VIEW => mkOutcome rayRef active None
  end.

(** The callback given to [useFrame]; [mounted] is [groupRef.current]. *)
Definition useFrame (mounted : bool) (appState : AppState) (rayRef : option Ray)
                    (active : option Z) (children : list Vec3) : Outcome :=
  if mounted then picking appState rayRef active (candidates children)
  else mkOutcome rayRef active None.

End PhotoCloud.

(** ** App.tsx and Scene.tsx: the shared state and one rendered frame *)
Module Scene.

(** [useState<AppState>(AppState.FORMED)] in [App]. *)
Definition initialAppState : AppState := FORMED.

(** [useRef(appState === AppState.FORMED ? 1 : 0)]. *)
Definition initialProgress (appState : AppState) : float :=
  match appState with FORMED => 1 | _ => 0 end.

Record World := mkWorld {
  appState : AppState;
  gesture : HandGesture;
  rayRef : option Ray;
  refs : HandController.Refs;
  activePhotoId : option Z
}.

Definition initialWorld : World :=
  mkWorld initialAppState HandController.noHand None HandController.initialRefs None.

Record Frame := mkFrame {
  hand : HandController.Input;
  mounted : bool;               (* PhotoCloud's groupRef.current *)
  children : list Vec3          (* world positions of the photo groups *)
}.

Definition orKeep {A} (call : option A) (old : A) : A :=
  match call with Some v => v | None => old end.

(** Of two writes in one frame the later one stays: the picker runs after
    the controller. *)
Definition lastCall {A} (first second : option A) : option A :=
  match second with Some v => Some v | None => first end.

(** One rendered frame: the controller's callback, then the picker's, both
    on the [appState] of the last render; [handlePinch] stores the ray in
    [rayRef] at once, the state setters take effect for the next frame. *)
Definition frame (f : Frame) (w : World) : option World :=
  rc <- HandController.useFrame (hand f) (appState w) (refs w) ;;
  let '(r, calls) := rc in
  let ray := lastCall (rayRef w) (HandController.onPinch calls) in
  let out := PhotoCloud.useFrame (mounted f) (appState w) ray (activePhotoId w) (children f) in
  Some (mkWorld
          (orKeep (lastCall (HandController.setAppState calls) (PhotoCloud.setAppState out))
                  (appState w))
          (orKeep (HandController.setGesture calls) (gesture w))
          (PhotoCloud.rayAfter out)
          r
          (PhotoCloud.activePhotoId out)).

Fixpoint run (fs : list Frame) (w : World) : option World :=
  match fs with
  | [] => Some w
  | f :: rest => w' <- frame f w ;; run rest w'
  end.

End Scene.

(** ** Sample inputs *)
Module Fixtures.

Definition pt (a b : float) : Vec2 := mkVec2 a b.

(** A hand from the ten landmarks the classifier reads; the eleven it never
    reads are put at the wrist. *)
Definition hand (wrist thumbTip indexMcp indexTip middleMcp middleTip
                 ringMcp ringTip pinkyMcp pinkyTip : Vec2) : HandController.Landmarks :=
  [ wrist; wrist; wrist; wrist; thumbTip;
    indexMcp; wrist; wrist; indexTip;
    middleMcp; wrist; wrist; middleTip;
    ringMcp; wrist; wrist; ringTip;
    pinkyMcp; wrist; wrist; pinkyTip ].

(** Four fingers curled towards the wrist, thumb on the index tip. *)
Definition fistHand : HandController.Landmarks :=
  hand (pt 0.5 0.9) (pt 0.42 0.7)
       (pt 0.4 0.6) (pt 0.4 0.7) (pt 0.47 0.6) (pt 0.47 0.7)
       (pt 0.53 0.6) (pt 0.53 0.7) (pt 0.6 0.6) (pt 0.6 0.7).

(** Thumb on the index tip, the three other fingers stretched. *)
Definition pinchHand : HandController.Landmarks :=
  hand (pt 0.5 0.9) (pt 0.42 0.5)
       (pt 0.4 0.6) (pt 0.4 0.5) (pt 0.47 0.6) (pt 0.47 0.3)
       (pt 0.53 0.6) (pt 0.53 0.3) (pt 0.6 0.6) (pt 0.6 0.3).

(** All fingers stretched and spread, thumb away. *)
Definition openHand : HandController.Landmarks :=
  hand (pt 0.5 0.9) (pt 0.2 0.6)
       (pt 0.4 0.6) (pt 0.3 0.25) (pt 0.47 0.6) (pt 0.45 0.2)
       (pt 0.53 0.6) (pt 0.57 0.2) (pt 0.6 0.6) (pt 0.72 0.25).

(** Thumb on the tip of a long index while middle, ring and pinky are
    barely past their knuckles. *)
Definition halfClosedHand : HandController.Landmarks :=
  hand (pt 0.5 0.9) (pt 0.52 0.6)
       (pt 0.5 0.8) (pt 0.5 0.6) (pt 0.47 0.6) (pt 0.47 0.57)
       (pt 0.53 0.6) (pt 0.53 0.57) (pt 0.6 0.6) (pt 0.6 0.57).

(** Middle, ring and pinky curled as in a fist, with the index knuckle
    reported at the wrist. *)
Definition knuckleAtWrist : HandController.Landmarks :=
  hand (pt 0.5 0.9) (pt 0.3 0.8)
       (pt 0.5 0.9) (pt 0.45 0.7) (pt 0.47 0.6) (pt 0.47 0.7)
       (pt 0.53 0.6) (pt 0.53 0.7) (pt 0.6 0.6) (pt 0.6 0.7).

(** The same curled hand with the index knuckle in place. *)
Definition curledHand : HandController.Landmarks :=
  hand (pt 0.5 0.9) (pt 0.3 0.8)
       (pt 0.4 0.6) (pt 0.45 0.7) (pt 0.47 0.6) (pt 0.47 0.7)
       (pt 0.53 0.6) (pt 0.53 0.7) (pt 0.6 0.6) (pt 0.6 0.7).

(** Every landmark at the centre of the image. *)
Definition collapsedHand : HandController.Landmarks :=
  repeat (pt 0.5 0.5) 21.

(** A camera looking down the z axis: the ray through a point of the
    screen starts ten units in front of it. *)
Definition flatCamera : Camera :=
  fun ndcX ndcY => mkRay (mkVec3 ndcX ndcY 10) (mkVec3 0 0 (-1)).

(** The ray straight down the z axis through the origin. *)
Definition axisRay : Ray := mkRay (mkVec3 0 0 10) (mkVec3 0 0 (-1)).

(** Candidates at squared distances 4.9, 2.0 and 6.01 of [axisRay]. *)
Definition threeCandidates : list PhotoCloud.Candidate :=
  [ PhotoCloud.mkCandidate 0 (mkVec3 2.1 0.7 0);
    PhotoCloud.mkCandidate 1 (mkVec3 1 1 0);
    PhotoCloud.mkCandidate 2 (mkVec3 2.4 0.5 3) ].

(** Two candidates at the same squared distance 2.0, then one further. *)
Definition tiedCandidates : list PhotoCloud.Candidate :=
  [ PhotoCloud.mkCandidate 4 (mkVec3 1 1 0);
    PhotoCloud.mkCandidate 5 (mkVec3 (-1) 1 2);
    PhotoCloud.mkCandidate 6 (mkVec3 2 0 0) ].

Definition farCandidates : list PhotoCloud.Candidate :=
  [ PhotoCloud.mkCandidate 0 (mkVec3 3 0 0);
    PhotoCloud.mkCandidate 1 (mkVec3 2 1 0);
    PhotoCloud.mkCandidate 2 (mkVec3 0 (-4) 1) ].

(** The twelve photos far from the axis of the scene. *)
Definition photosAway : list Vec3 := repeat (mkVec3 50 50 0) 12.

(** The same with the fourth photo on the ray that [flatCamera] casts for
    the pointer of [pinchHand]. *)
Definition photoOnRay : list Vec3 :=
  repeat (mkVec3 50 50 0) 3 ++ [mkVec3 0.17999999999999994 0 0] ++ repeat (mkVec3 50 50 0) 8.

(** A pinch while no photo is near the ray. *)
Definition pinchFrame : Scene.Frame :=
  Scene.mkFrame (HandController.mkInput true 0.1 [pinchHand] 1000 flatCamera) true photosAway.

(** A minute later: no hand in the image, and a photo has come to where the
    pinch pointed. *)
Definition laterFrame : Scene.Frame :=
  Scene.mkFrame (HandController.mkInput true 60.1 [] 61000 flatCamera) true photoOnRay.

(** A photo is being viewed; the user pinches, then opens the hand to leave,
    then takes the hand away.  The fourth photo sits on the ray all along. *)
Definition viewing : Scene.World :=
  Scene.mkWorld PHOTO_VIEW HandController.noHand None HandController.initialRefs (Some 7%Z).

Definition pinchWhileViewing : Scene.Frame :=
  Scene.mkFrame (HandController.mkInput true 0.1 [pinchHand] 1000 flatCamera) true photoOnRay.

Definition openToLeave : Scene.Frame :=
  Scene.mkFrame (HandController.mkInput true 1.1 [openHand] 2000 flatCamera) true photoOnRay.

Definition handAway : Scene.Frame :=
  Scene.mkFrame (HandController.mkInput true 1.2 [] 2100 flatCamera) true photoOnRay.

Definition fist : HandGesture := mkGesture true false false (pt 0.5 0.5).
Definition open : HandGesture := mkGesture false true false (pt 0.5 0.5).
Definition pinch : HandGesture := mkGesture false false true (pt 0.5 0.5).
Definition idle : HandGesture := mkGesture false false false (pt 0.5 0.5).

End Fixtures.

(** ** PhotoCloud.tsx: where the photos are drawn

    The second loop of the frame callback moves every photo towards a
    target.  The branch it takes and the numbers it computes are below; the
    target position and orientation are three.js objects built from the
    camera and are left out. *)
Module PhotoView.

(** [appState === AppState.PHOTO_VIEW && photo.id === activePhotoId]: the
    photo is brought in front of the camera.  [null] is no id. *)
Definition inFront (appState : AppState) (activePhotoId : option Z) (photoId : nat) : bool :=
  match appState, activePhotoId with
  | PHOTO_VIEW, Some a => (Z.of_nat photoId =? a)%Z
  | _, _ => false
  end.

(** [scale]. *)
Definition scale (appState : AppState) (activePhotoId : option Z) (photoId : nat) : float :=
  if inFront appState activePhotoId photoId then 3.0 else 1.0.

(** [mix], for the photos that are not in front. *)
Definition mix (appState : AppState) (progress : float) : float :=
  match appState with PHOTO_VIEW => 0 | _ => progress end.

(** [targetScale]. *)
Definition targetScale (appState : AppState) (activePhotoId : option Z) (photoId : nat) : float :=
  (scale appState activePhotoId photoId
   * match appState with FORMED => 0.8 | _ => 1.2 end)%float.

End PhotoView.

(** ** constants.ts *)
Module Constants.

Definition TREE_HEIGHT : float := 10.
Definition TREE_RADIUS_BASE : float := 3.5.
Definition CHAOS_RADIUS : float := 15.
Definition ORNAMENT_COUNT : nat := 300.

(** The keys of [COLORS]; their values are the hex strings '#FFD700',
    '#C0C0C0', '#B22222', '#004225' and '#FFFFFF'. *)
Inductive Color := GOLD | SILVER | RED | EMERALD | WHITE.

End Constants.

(** ** More number operations of the host language and of three.js *)
Module JSMath.

(** [Math.PI]. *)
Definition PI : float := 3.141592653589793.

(** [Math.min] and [Math.max] of two numbers: NaN if either is, and [-0]
    below [+0]. *)
Definition min (a b : float) : float :=
  if is_nan a || is_nan b then nan
  else if (a <? b)%float then a
  else if (b <? a)%float then b
  else if get_sign a then a else b.

Definition max (a b : float) : float :=
  if is_nan a || is_nan b then nan
  else if (a <? b)%float then b
  else if (b <? a)%float then a
  else if get_sign a then b else a.

(** [THREE.MathUtils.clamp]. *)
Definition clamp (value lo hi : float) : float := max lo (min hi value).

(** [Vector3.lerp]: [this.x += (v.x - this.x) * alpha], and so on. *)
Definition lerp (this v : Vec3) (alpha : float) : Vec3 :=
  mkVec3 (vx this + (vx v - vx this) * alpha)
         (vy this + (vy v - vy this) * alpha)
         (vz this + (vz v - vz this) * alpha).

End JSMath.

(** ** Ornaments.tsx *)
Module Ornaments.
Import Constants.

(** ['box' | 'ball']. *)
Inductive Shape := box | ball.

Record OrnamentData := mkOrnament {
  id : nat;
  type : Shape;
  color : Color;
  chaosPos : Vec3;
  targetPos : Vec3;
  scale : float;
  speed : float;
  rotationSpeed : Vec3
}.

(** The keys of [items]. *)
Inductive Key := goldBalls | redBalls | goldBoxes.

(** [items], an object with one array per key. *)
Definition Items := Key -> list OrnamentData.

Definition noItems : Items := fun _ => [].

(** [items[typeKey].push(item)]. *)
Definition push (typeKey : Key) (item : OrnamentData) (items : Items) : Items :=
  fun k =>
    match k, typeKey with
    | goldBalls, goldBalls | redBalls, redBalls | goldBoxes, goldBoxes => items k ++ [item]
    | _, _ => items k
    end.

Section Generation.

(** [Math.random()]: the value of the [k]-th call of the loop, which makes
    thirteen calls per ornament; [Math.cos] and [Math.sin]. *)
Variable random : nat -> float.
Variables cos sin : float -> float.

Definition draw (i k : nat) : float := random (13 * i + k).

Definition isBox (i : nat) : bool := (0.7 <? draw i 0)%float.
Definition isGold (i : nat) : bool := (0.4 <? draw i 1)%float.

Definition typeKey (i : nat) : Key :=
  if isBox i then goldBoxes else if isGold i then goldBalls else redBalls.

(** The object pushed by the [i]-th turn of the loop. *)
Definition item (i : nat) : OrnamentData :=
  let y := (draw i 2 * (TREE_HEIGHT - 1) + 1)%float in
  let radiusAtHeight := ((1 - y / TREE_HEIGHT) * TREE_RADIUS_BASE)%float in
  let r := (radiusAtHeight + 0.2 + draw i 3 * 0.5)%float in
  let angle := (draw i 4 * JSMath.PI * 2)%float in
  let tx := (cos angle * r)%float in
  let tz := (sin angle * r)%float in
  let cx := ((draw i 5 - 0.5) * CHAOS_RADIUS * 1.5)%float in
  let cy := ((draw i 6 - 0.5) * CHAOS_RADIUS + 10)%float in
  let cz := ((draw i 7 - 0.5) * CHAOS_RADIUS * 1.5)%float in
  let scale := (if isBox i then 0.3 + draw i 8 * 0.3 else 0.2 + draw i 8 * 0.2)%float in
  let speed := (if isBox i then 8.0 + draw i 9 * 4.0 else 12.0 + draw i 9 * 6.0)%float in
  mkOrnament i
             (if isBox i then box else ball)
             (if isGold i then GOLD else RED)
             (mkVec3 cx cy cz)
             (mkVec3 tx y tz)
             scale
             speed
             (mkVec3 (draw i 10) (draw i 11) (draw i 12)).

(** [items] after the turns [0 .. n-1] of the loop. *)
Fixpoint generate (n : nat) : Items :=
  match n with
  | O => noItems
  | S m => push (typeKey m) (item m) (generate m)
  end.

(** [data]. *)
Definition data : Items := generate ORNAMENT_COUNT.

(** [currentPositions.current] at mount. *)
Definition initialPositions (key : Key) : list Vec3 := map chaosPos (data key).

End Generation.

(** [lerpFactor]. *)
Definition lerpFactor (delta : float) (item : OrnamentData) : float :=
  JSMath.clamp (delta * speed item) 0 1.

(** The new [currentPosArr[i]] of an ornament in [updateMesh]. *)
Definition moved (globalProgress delta : float) (item : OrnamentData) (current : Vec3) : Vec3 :=
  let targetVec := if (0.5 <? globalProgress)%float then targetPos item else chaosPos item in
  JSMath.lerp current targetVec (lerpFactor delta item).

End Ornaments.

(** ** More sample inputs *)
Module Samples.

(** [Fixtures.pinchHand] with the landmarks the classifier never reads moved
    off the wrist. *)
Definition pinchHandMoved : HandController.Landmarks :=
  let far := mkVec2 0.9 0.1 in
  match Fixtures.pinchHand with
  | [l0; _; _; _; l4; l5; _; _; l8; l9; _; _; l12; l13; _; _; l16; l17; _; _; l20] =>
      [l0; far; far; far; l4; l5; far; far; l8; l9; far; far; l12; l13; far; far; l16;
       l17; far; far; l20]
  | other => other
  end.

End Samples.

(** * Properties *)

(** ** Facts on the order of binary64 values *)
Module FloatOrderFacts.
Import FloatOrder.

Lemma SFcompare_lex f g :
  SFcompare f g =
  if sf_nan f || sf_nan g then None else Some (lex (rank f) (rank g)).
Proof.
  destruct f as [s1 | s1 | | s1 m1 e1], g as [s2 | s2 | | s2 m2 e2];
    try destruct s1; try destruct s2; try reflexivity.
  cbn. rewrite Z.compare_opp, (Z.compare_antisym e1 e2).
  destruct (e1 ?= e2)%Z; reflexivity.
Qed.

Lemma lex_Lt p q :
  lex p q = Lt <->
  let '(a1, b1, c1) := p in
  let '(a2, b2, c2) := q in
  (a1 < a2 \/ (a1 = a2 /\ (b1 < b2 \/ (b1 = b2 /\ c1 < c2))))%Z.
Proof.
  destruct p as [[a1 b1] c1], q as [[a2 b2] c2]. unfold lex.
  destruct (Z.compare_spec a1 a2), (Z.compare_spec b1 b2), (Z.compare_spec c1 c2);
    split; intros; try discriminate; try reflexivity; lia.
Qed.

Lemma ltb_lex a b :
  (a <? b)%float = true <->
  sf_nan (Prim2SF a) = false /\ sf_nan (Prim2SF b) = false /\
  lex (rank (Prim2SF a)) (rank (Prim2SF b)) = Lt.
Proof.
  rewrite ltb_spec. unfold SFltb. rewrite SFcompare_lex.
  destruct (sf_nan (Prim2SF a)), (sf_nan (Prim2SF b)); cbn;
    try (split; [discriminate | intros (? & ? & ?); discriminate]).
  destruct (lex _ _); split; intros; try discriminate; auto; try tauto.
  all: destruct H as (_ & _ & H); discriminate.
Qed.

Ltac ranks :=
  repeat match goal with
         | |- context [rank ?f] =>
             let a := fresh "a" in let b := fresh "b" in let c := fresh "c" in
             destruct (rank f) as [[a b] c]
         end.

Lemma ltb_trans a b c :
  (a <? b)%float = true -> (b <? c)%float = true -> (a <? c)%float = true.
Proof.
  rewrite !ltb_lex. intros (Ha & Hb & H1) (_ & Hc & H2). repeat split; auto.
  revert H1 H2. rewrite !lex_Lt. ranks. lia.
Qed.

Lemma ltb_asym a b : (a <? b)%float = true -> (b <? a)%float = false.
Proof.
  intros H. destruct (b <? a)%float eqn:E; [|reflexivity].
  revert H E. rewrite !ltb_lex. intros (_ & _ & H1) (_ & _ & H2).
  revert H1 H2. rewrite !lex_Lt. ranks. lia.
Qed.

Lemma ltb_irrefl a : (a <? a)%float = false.
Proof.
  destruct (a <? a)%float eqn:E; [|reflexivity].
  pose proof (ltb_asym _ _ E). congruence.
Qed.

(** [a] is below [b], and the number [c] (it is below some [t], so it is
    not NaN) is not below [b]: then [a] is below [c]. *)
Lemma ltb_below a b c t :
  (a <? b)%float = true -> (c <? b)%float = false -> (c <? t)%float = true ->
  (a <? c)%float = true.
Proof.
  intros H1 H2 H3. apply ltb_lex in H1, H3.
  destruct H1 as (Ha & Hb & H1), H3 as (Hc & _ & _).
  apply ltb_lex. repeat split; auto.
  assert (N : lex (rank (Prim2SF c)) (rank (Prim2SF b)) <> Lt).
  { intros E. rewrite (proj2 (ltb_lex c b)) in H2; [discriminate | auto]. }
  revert H1 N. rewrite !lex_Lt. ranks. lia.
Qed.

Lemma leb_not_gt a b : (a <=? b)%float = true -> (b <? a)%float = false.
Proof.
  intros H. destruct (b <? a)%float eqn:E; [|reflexivity].
  apply ltb_lex in E. destruct E as (Hb & Ha & E).
  rewrite leb_spec in H. unfold SFleb in H. rewrite SFcompare_lex, Ha, Hb in H.
  cbn in H.
  assert (N : lex (rank (Prim2SF a)) (rank (Prim2SF b)) <> Gt).
  { destruct (lex (rank (Prim2SF a))); congruence. }
  revert E N. rewrite lex_Lt. unfold lex.
  destruct (rank (Prim2SF a)) as [[a1 b1] c1], (rank (Prim2SF b)) as [[a2 b2] c2].
  destruct (Z.compare_spec a1 a2), (Z.compare_spec b1 b2), (Z.compare_spec c1 c2);
    intros; try congruence; lia.
Qed.

End FloatOrderFacts.

(** ** The classifier *)
Module ClassifierFacts.
Import HandController.

(** A hand of the detector has 21 landmarks. *)
Ltac hand21 l H :=
  do 21 (destruct l as [| ? l]; [discriminate H |]);
  destruct l; [clear H | discriminate H].

(** On 21 landmarks no read is out of range: every quantity of the
    classifier is computed and a gesture is published, with the flags of
    [flags] on these quantities. *)
Lemma classify_21 (l : Landmarks) :
  length l = 21 ->
  exists avg nonIndex cand spread raw,
    avgRatio l = Some avg /\ nonIndexRatio l = Some nonIndex /\
    isPinchCandidate l = Some cand /\ spreadFactor l = Some spread /\
    let '(fist, pinch, open) := flags avg nonIndex spread cand in
    classify l = Some (mkGesture fist open pinch (mkVec2 (1 - x raw) (y raw))).
Proof.
  intros H. hand21 l H.
  unfold classify.
  cbv [avgRatio nonIndexRatio isPinchCandidate spreadFactor indexRatio middleRatio
       ringRatio pinkyRatio getRatio getDist pinchDist palmWidth spreadWidth span
       at_ nth_error rawPosition].
  match goal with
  | |- context [flags ?a ?n ?s ?c] =>
      exists a, n, c, s; destruct (flags a n s c) as [[fist pinch] open]
  end.
  match goal with
  | |- context [if ?b then Some ?u else Some ?w] =>
      exists (if b then u else w); destruct b
  end; repeat split; reflexivity.
Qed.

Lemma classify_total (l : Landmarks) :
  length l = 21 -> exists g, classify l = Some g.
Proof.
  intros H. destruct (classify_21 l H) as (avg & ni & cand & sp & raw & _ & _ & _ & _ & E).
  destruct (flags avg ni sp cand) as [[fist pinch] open]. eauto.
Qed.

(** The three flags exclude each other: every published gesture is a fist,
    a pinch, an open hand or none of them. *)
Lemma flags_exclusive avg nonIndex spread cand :
  match flags avg nonIndex spread cand with
  | (fist, pinch, open) =>
      (fist = true -> pinch = false /\ open = false) /\
      (pinch = true -> fist = false /\ open = false) /\
      (open = true -> fist = false /\ pinch = false)
  end.
Proof.
  unfold flags.
  destruct (avg <? 1.35)%float; [| destruct (cand && _);
    [| destruct ((1.5 <? avg)%float || _)]];
    repeat split; congruence.
Qed.

(** With hands of 21 landmarks the frame callback of the controller raises
    no exception. *)
Lemma useFrame_total i st r :
  Forall (fun l => length l = 21) (results i) ->
  exists out, useFrame i st r = Some out.
Proof.
  intros H. unfold useFrame.
  destruct (negb (ready i)); [eauto |].
  destruct (JS.strict_neq _ _); [| eauto].
  destruct (results i) as [| l others]; [eauto |].
  inversion H as [| ? ? Hl _]; subst.
  destruct (classify_total l Hl) as [g ->]. eauto.
Qed.

(** C5. Every 21-point hand whose average curl ratio [avgRatio] is below
    1.35 is classified as Fist (fist, neither pinch nor open), whatever
    the distance between thumb tip and index tip. *)
Theorem fist_below_threshold (l : Landmarks) (avg : float) :
  length l = 21 ->
  avgRatio l = Some avg ->
  (avg <? 1.35)%float = true ->
  exists p, classify l = Some (mkGesture true false false p).
Proof.
  intros H Havg Hlt.
  destruct (classify_21 l H) as (avg' & ni & cand & sp & raw & E & _ & _ & _ & C).
  rewrite Havg in E. injection E as <-.
  unfold flags in C. rewrite Hlt in C. eauto.
Qed.

Lemma fist_below_threshold_witness :
  exists p, classify Fixtures.fistHand = Some (mkGesture true false false p).
Proof.
  eapply (fist_below_threshold Fixtures.fistHand).
  - reflexivity.
  - vm_compute. reflexivity.
  - vm_compute. reflexivity.
Defined.

(** C6. On a 21-point hand that is a pinch candidate (thumb tip and index
    tip closer than 0.08) while the mean curl ratio of middle, ring and
    pinky is at most 1.2, the published gesture is not a pinch. *)
Theorem pinch_guard (l : Landmarks) (nonIndex : float) :
  length l = 21 ->
  isPinchCandidate l = Some true ->
  nonIndexRatio l = Some nonIndex ->
  (nonIndex <=? 1.2)%float = true ->
  exists g, classify l = Some g /\ isPinch g = false.
Proof.
  intros H Hcand Hni Hle.
  destruct (classify_21 l H) as (avg & ni & cand & sp & raw & _ & E & _ & _ & C).
  rewrite Hni in E. injection E as <-.
  apply FloatOrderFacts.leb_not_gt in Hle.
  unfold flags in C. rewrite Hle, andb_false_r in C.
  destruct (avg <? 1.35)%float;
    [| destruct ((1.5 <? avg)%float || ((1.6 <? sp)%float && (1.25 <? avg)%float))];
    eexists; (split; [exact C | reflexivity]).
Qed.

Lemma pinch_guard_witness :
  isPinchCandidate Fixtures.halfClosedHand = Some true /\
  exists g, classify Fixtures.halfClosedHand = Some g /\ isPinch g = false.
Proof.
  split; [vm_compute; reflexivity |].
  eapply (pinch_guard Fixtures.halfClosedHand).
  - reflexivity.
  - vm_compute. reflexivity.
  - vm_compute. reflexivity.
  - vm_compute. reflexivity.
Defined.

(** C9. The curl ratio divides by the distance from the wrist to the
    knuckle without a guard.  On a hand whose index knuckle is reported at
    the wrist that distance is 0 and the ratio of the index, and with it
    the average, is infinite: the hand is published as open although
    middle, ring and pinky are curled, where the same hand with the
    knuckle in place is a fist.  With all landmarks on one point the
    ratios are NaN and no flag is set.  The spread factor, computed a few
    lines below, does guard its divisor. *)
Theorem unguarded_curl_ratio :
  getDist Fixtures.knuckleAtWrist 5 = Some 0%float /\
  indexRatio Fixtures.knuckleAtWrist = Some infinity /\
  avgRatio Fixtures.knuckleAtWrist = Some infinity /\
  classify Fixtures.knuckleAtWrist
    = Some (mkGesture false true false (mkVec2 0.44999999999999996 0.75)) /\
  classify Fixtures.curledHand
    = Some (mkGesture true false false (mkVec2 0.5 0.59999999999999998)) /\
  avgRatio Fixtures.collapsedHand = Some nan /\
  classify Fixtures.collapsedHand
    = Some (mkGesture false false false (mkVec2 0.5 0.5)) /\
  spreadFactor Fixtures.collapsedHand = Some 0%float.
Proof.
  repeat split; vm_compute; reflexivity.
Qed.

End ClassifierFacts.

(** ** The controller *)
Module ControllerFacts.
Import HandController.

Local Open Scope Z_scope.

Lemma pinchAction_idle camera g now r :
  isPinch g = false ->
  pinchAction camera g now r
  = (mkRefs (lastVideoTimeRef r) (gestureTimeoutRef r) false, None).
Proof. intros H. unfold pinchAction. rewrite H. reflexivity. Qed.

Lemma pinchAction_pinch camera g now r :
  isPinch g = true ->
  pinchAction camera g now r
  = (mkRefs (lastVideoTimeRef r) (now + 500) true,
     if wasPinchingRef r then None else Some (camera (ndcX g) (ndcY g))).
Proof.
  intros H. unfold pinchAction. rewrite H. destruct (wasPinchingRef r); reflexivity.
Qed.

Lemma stateSwitching_pinch g now st r :
  isPinch g = true -> stateSwitching g now st r = (r, None).
Proof.
  intros H. unfold stateSwitching. rewrite H, andb_false_r. reflexivity.
Qed.

(** A state switch happens only after the cooldown and moves it forward. *)
Lemma stateSwitching_timeout g now st r :
  gestureTimeoutRef r <= gestureTimeoutRef (fst (stateSwitching g now st r)).
Proof.
  unfold stateSwitching.
  destruct (gestureTimeoutRef r <? now) eqn:E; cbn [andb]; [| cbn; lia].
  apply Z.ltb_lt in E.
  destruct (negb (isPinch g)), (isFist g), (isOpen g), st; cbn; lia.
Qed.

(** A fist while the tree is formed changes nothing but the pinch flag. *)
Lemma fist_while_formed camera g now r :
  Fist g ->
  onVerdict camera (Some g) now FORMED r
  = (mkRefs (lastVideoTimeRef r) (gestureTimeoutRef r) false, mkCalls (Some g) None None).
Proof.
  intros (Hf & _ & Hp). cbn [onVerdict]. unfold handDetected.
  rewrite (pinchAction_idle _ _ _ _ Hp). unfold stateSwitching. rewrite Hf, Hp.
  cbn. destruct (_ <? now); reflexivity.
Qed.

Lemma fists_while_formed camera rest : forall r,
  Forall (fun vn => exists g, fst vn = Some g /\ Fist g) rest ->
  map setAppState (fst (session camera (FORMED, r) rest)) = repeat None (length rest) /\
  fst (snd (session camera (FORMED, r) rest)) = FORMED.
Proof.
  induction rest as [| [v n] rest IH]; intros r H; [split; reflexivity |].
  inversion H as [| ? ? (g & Hv & Hg) Hrest]; subst. cbn in Hv. subst v.
  cbn [session]. unfold feed. cbn [fst snd].
  rewrite (fist_while_formed _ _ _ _ Hg). cbn [setAppState].
  specialize (IH (mkRefs (lastVideoTimeRef r) (gestureTimeoutRef r) false) Hrest).
  destruct (session camera _ rest) as [cs final]. cbn in *.
  destruct IH as [IH1 IH2]. rewrite IH1. split; [reflexivity | assumption].
Qed.

(** A fist in CHAOS on a frame that is not after the cooldown changes
    nothing but the pinch flag. *)
Lemma fist_during_cooldown camera g now r :
  Fist g -> now <= gestureTimeoutRef r ->
  onVerdict camera (Some g) now CHAOS r
  = (mkRefs (lastVideoTimeRef r) (gestureTimeoutRef r) false, mkCalls (Some g) None None).
Proof.
  intros (Hf & _ & Hp) Hnow. cbn [onVerdict]. unfold handDetected.
  rewrite (pinchAction_idle _ _ _ _ Hp). unfold stateSwitching.
  cbn [gestureTimeoutRef]. rewrite (proj2 (Z.ltb_ge _ _) Hnow). reflexivity.
Qed.

(** The first fist after the cooldown, in CHAOS. *)
Lemma fist_after_cooldown camera g now r :
  Fist g -> gestureTimeoutRef r < now ->
  onVerdict camera (Some g) now CHAOS r
  = (mkRefs (lastVideoTimeRef r) (now + 1000) false, mkCalls (Some g) None (Some FORMED)).
Proof.
  intros (Hf & _ & Hp) Hnow. cbn [onVerdict]. unfold handDetected.
  rewrite (pinchAction_idle _ _ _ _ Hp). unfold stateSwitching.
  cbn [gestureTimeoutRef]. rewrite (proj2 (Z.ltb_lt _ _) Hnow), Hf, Hp. reflexivity.
Qed.

Lemma fists_from_chaos camera g now rest pre : forall r,
  Forall (fun vn => (exists g', fst vn = Some g' /\ Fist g') /\ snd vn <= gestureTimeoutRef r)
         pre ->
  Fist g -> gestureTimeoutRef r < now ->
  Forall (fun vn => exists g', fst vn = Some g' /\ Fist g') rest ->
  map setAppState (fst (session camera (CHAOS, r) (pre ++ (Some g, now) :: rest)))
  = repeat None (length pre) ++ Some FORMED :: repeat None (length rest) /\
  fst (snd (session camera (CHAOS, r) (pre ++ (Some g, now) :: rest))) = FORMED.
Proof.
  induction pre as [| [v n] pre IH]; intros r Hpre Hg Hnow Hrest.
  - cbn [app session length repeat]. unfold feed. cbn [fst snd].
    rewrite (fist_after_cooldown _ _ _ _ Hg Hnow). cbn [setAppState].
    match goal with
    | |- context [session camera (FORMED, ?r1) rest] =>
        destruct (fists_while_formed camera rest r1 Hrest) as [E1 E2];
        destruct (session camera (FORMED, r1) rest) as [cs final]
    end.
    cbn in *. rewrite E1. split; [reflexivity | assumption].
  - inversion Hpre as [| ? ? [(g' & Hv & Hg') Hn] Hpre']; subst. cbn in Hv, Hn. subst v.
    cbn [app session length repeat]. unfold feed. cbn [fst snd].
    rewrite (fist_during_cooldown _ _ _ _ Hg' Hn). cbn [setAppState].
    specialize (IH (mkRefs (lastVideoTimeRef r) (gestureTimeoutRef r) false) Hpre' Hg Hnow Hrest).
    destruct (session camera _ (pre ++ _)) as [cs final]. cbn in *.
    destruct IH as [IH1 IH2]. rewrite IH1. split; [reflexivity | assumption].
Qed.

(** C2, as the code has it. A frame whose verdict is not a pinch (a hand
    that does not pinch, or no hand) never moves the cooldown
    [gestureTimeoutRef] backward: the frame asks for no state and keeps the
    cooldown, or it asks for a state, which needs [now] after the cooldown,
    and sets the cooldown to [now + 1000].  A frame with a pinch sets it to
    [now + 500] whatever it held. *)
Theorem cooldown_unless_pinch camera v now st r :
  (notPinch v ->
   gestureTimeoutRef r <= gestureTimeoutRef (fst (onVerdict camera v now st r)) /\
   ((setAppState (snd (onVerdict camera v now st r)) = None /\
     gestureTimeoutRef (fst (onVerdict camera v now st r)) = gestureTimeoutRef r) \/
    (exists a,
        setAppState (snd (onVerdict camera v now st r)) = Some a /\
        gestureTimeoutRef r < now /\
        gestureTimeoutRef (fst (onVerdict camera v now st r)) = now + 1000))) /\
  (forall g, v = Some g -> isPinch g = true ->
   gestureTimeoutRef (fst (onVerdict camera v now st r)) = now + 500).
Proof.
  split.
  - assert (K : notPinch v ->
                (setAppState (snd (onVerdict camera v now st r)) = None /\
                 gestureTimeoutRef (fst (onVerdict camera v now st r)) = gestureTimeoutRef r) \/
                (exists a,
                    setAppState (snd (onVerdict camera v now st r)) = Some a /\
                    gestureTimeoutRef r < now /\
                    gestureTimeoutRef (fst (onVerdict camera v now st r)) = now + 1000)).
    { destruct v as [g |]; cbn [notPinch onVerdict]; [| intros _; left; split; reflexivity].
      intros Hp. unfold handDetected. rewrite (pinchAction_idle _ _ _ _ Hp).
      unfold stateSwitching. cbn [gestureTimeoutRef lastVideoTimeRef wasPinchingRef].
      rewrite Hp. cbn [negb]. rewrite andb_true_r.
      destruct (gestureTimeoutRef r <? now) eqn:E; [| left; split; reflexivity].
      apply Z.ltb_lt in E.
      destruct (isFist g), (isOpen g), st; cbn;
        (left; split; reflexivity) || (right; eexists; repeat split; assumption). }
    intros Hv. split; [| exact (K Hv)].
    destruct (K Hv) as [[_ ->] | (a & _ & Hlt & ->)]; lia.
  - intros g -> Hp. cbn [onVerdict]. unfold handDetected.
    rewrite (pinchAction_pinch _ _ _ _ Hp), (stateSwitching_pinch _ _ _ _ Hp).
    reflexivity.
Qed.

Lemma cooldown_unless_pinch_witness :
  (gestureTimeoutRef (mkRefs 0 2000 false)
   <= gestureTimeoutRef
        (fst (onVerdict Fixtures.flatCamera (Some Fixtures.open) 2500 FORMED
                        (mkRefs 0 2000 false))) /\
   ((setAppState (snd (onVerdict Fixtures.flatCamera (Some Fixtures.open) 2500 FORMED
                                 (mkRefs 0 2000 false))) = None /\
     gestureTimeoutRef
       (fst (onVerdict Fixtures.flatCamera (Some Fixtures.open) 2500 FORMED
                       (mkRefs 0 2000 false)))
     = gestureTimeoutRef (mkRefs 0 2000 false)) \/
    (exists a,
        setAppState (snd (onVerdict Fixtures.flatCamera (Some Fixtures.open) 2500 FORMED
                                    (mkRefs 0 2000 false))) = Some a /\
        gestureTimeoutRef (mkRefs 0 2000 false) < 2500 /\
        gestureTimeoutRef
          (fst (onVerdict Fixtures.flatCamera (Some Fixtures.open) 2500 FORMED
                          (mkRefs 0 2000 false))) = 2500 + 1000))) /\
  gestureTimeoutRef
    (fst (onVerdict Fixtures.flatCamera (Some Fixtures.pinch) 2500 FORMED
                    (mkRefs 0 2000 false))) = 2500 + 500.
Proof.
  split.
  - apply (proj1 (cooldown_unless_pinch Fixtures.flatCamera (Some Fixtures.open)
                                        2500 FORMED (mkRefs 0 2000 false))).
    reflexivity.
  - apply (proj2 (cooldown_unless_pinch Fixtures.flatCamera (Some Fixtures.pinch)
                                        2500 FORMED (mkRefs 0 2000 false))
                 Fixtures.pinch); reflexivity.
Defined.

(** C2, as stated, fails: a fist at time 1000 forms the tree and sets the
    cooldown to 2000; a pinch 100 ms later, with 900 ms of that cooldown
    pending, writes 1600. *)
Lemma cooldown_moves_backward :
  snd (session Fixtures.flatCamera (CHAOS, initialRefs) [(Some Fixtures.fist, 1000)])
  = (FORMED, mkRefs (-1) 2000 false) /\
  snd (session Fixtures.flatCamera (CHAOS, initialRefs)
               [(Some Fixtures.fist, 1000); (Some Fixtures.pinch, 1100)])
  = (FORMED, mkRefs (-1) 1600 true) /\
  1600 < 2000.
Proof. repeat apply conj; reflexivity. Qed.

(** C3. From CHAOS, a run of fist verdicts asks for FORMED on its first
    frame after the cooldown and for nothing on any frame before or after
    it, and ends in FORMED.  An open verdict on a frame that is not after the
    cooldown asks for nothing and leaves the cooldown as it is.  An open
    verdict on a frame after the cooldown, in FORMED or PHOTO_VIEW, asks for
    CHAOS and sets the cooldown to [now + 1000]. *)
Theorem fist_once_then_open camera :
  (forall r pre g now rest,
      Forall (fun vn => (exists g', fst vn = Some g' /\ Fist g') /\
                        snd vn <= gestureTimeoutRef r) pre ->
      Fist g -> gestureTimeoutRef r < now ->
      Forall (fun vn => exists g', fst vn = Some g' /\ Fist g') rest ->
      map setAppState (fst (session camera (CHAOS, r) (pre ++ (Some g, now) :: rest)))
      = repeat None (length pre) ++ Some FORMED :: repeat None (length rest) /\
      fst (snd (session camera (CHAOS, r) (pre ++ (Some g, now) :: rest))) = FORMED) /\
  (forall r g now st,
      Open g -> now <= gestureTimeoutRef r ->
      setAppState (snd (onVerdict camera (Some g) now st r)) = None /\
      gestureTimeoutRef (fst (onVerdict camera (Some g) now st r)) = gestureTimeoutRef r) /\
  (forall r g now st,
      Open g -> gestureTimeoutRef r < now -> st = FORMED \/ st = PHOTO_VIEW ->
      setAppState (snd (onVerdict camera (Some g) now st r)) = Some CHAOS /\
      gestureTimeoutRef (fst (onVerdict camera (Some g) now st r)) = now + 1000).
Proof.
  repeat apply conj.
  - intros r pre g now rest. apply fists_from_chaos.
  - intros r g now st (Hf & Ho & Hp) Hnow.
    cbn [onVerdict]. unfold handDetected.
    rewrite (pinchAction_idle _ _ _ _ Hp). unfold stateSwitching.
    cbn [gestureTimeoutRef]. rewrite (proj2 (Z.ltb_ge _ _) Hnow).
    split; reflexivity.
  - intros r g now st (Hf & Ho & Hp) Hnow Hst.
    cbn [onVerdict]. unfold handDetected.
    rewrite (pinchAction_idle _ _ _ _ Hp). unfold stateSwitching.
    cbn [gestureTimeoutRef]. rewrite (proj2 (Z.ltb_lt _ _) Hnow), Hf, Ho, Hp.
    destruct Hst; subst st; split; reflexivity.
Qed.

Lemma fist_once_then_open_witness :
  (map setAppState
       (fst (session Fixtures.flatCamera (CHAOS, initialRefs)
                     [(Some Fixtures.fist, 1000); (Some Fixtures.fist, 2000);
                      (Some Fixtures.fist, 3000)]))
   = [Some FORMED; None; None]) /\
  setAppState (snd (onVerdict Fixtures.flatCamera (Some Fixtures.open) 1800 FORMED
                              (mkRefs 0 2000 false))) = None /\
  setAppState (snd (onVerdict Fixtures.flatCamera (Some Fixtures.open) 2001 FORMED
                              (mkRefs 0 2000 false))) = Some CHAOS.
Proof.
  pose proof (fist_once_then_open Fixtures.flatCamera) as (P1 & P2 & P3).
  repeat apply conj.
  - apply (P1 initialRefs [] Fixtures.fist 1000
              [(Some Fixtures.fist, 2000); (Some Fixtures.fist, 3000)]).
    + constructor.
    + repeat split.
    + reflexivity.
    + repeat constructor; exists Fixtures.fist; repeat split.
  - apply (P2 (mkRefs 0 2000 false) Fixtures.open 1800 FORMED).
    + repeat split.
    + cbn. lia.
  - apply (P3 (mkRefs 0 2000 false) Fixtures.open 2001 FORMED).
    + repeat split.
    + reflexivity.
    + left. reflexivity.
Defined.

(** C4. Over four frames whose verdicts are not-pinch, pinch, pinch,
    not-pinch, from any state of the controller and at any times, the
    controller hands a ray to [onPinch] on the second frame (the ray of the
    camera through that frame's pointer) and on no other. *)
Theorem pinch_rising_edge camera s v1 n1 g2 n2 g3 n3 v4 n4 :
  notPinch v1 -> isPinch g2 = true -> isPinch g3 = true -> notPinch v4 ->
  map onPinch
      (fst (session camera s [(v1, n1); (Some g2, n2); (Some g3, n3); (v4, n4)]))
  = [None; Some (camera (ndcX g2) (ndcY g2)); None; None].
Proof.
  intros H1 H2 H3 H4. destruct s as [st r].
  assert (idle : forall v n st r, notPinch v ->
             exists a r', feed camera (st, r) (v, n)
                          = ((a, mkRefs (lastVideoTimeRef r) r' false),
                             mkCalls (Some match v with Some g => g | None => noHand end)
                                     None
                                     (setAppState (snd (onVerdict camera v n st r))))).
  { intros v n st0 r0 Hv. unfold feed. cbn [fst snd].
    destruct v as [g |]; cbn [onVerdict notPinch] in *.
    - unfold handDetected. rewrite (pinchAction_idle _ _ _ _ Hv).
      unfold stateSwitching. cbn [gestureTimeoutRef lastVideoTimeRef wasPinchingRef].
      rewrite Hv. destruct (_ <? n), (isFist g), (isOpen g), st0; cbn; eauto.
    - cbn. eauto. }
  cbn [session].
  destruct (idle v1 n1 st r H1) as (a1 & t1 & ->).
  unfold feed at 1. cbn [fst snd onVerdict]. unfold handDetected at 1.
  rewrite (pinchAction_pinch _ _ _ _ H2), (stateSwitching_pinch _ _ _ _ H2).
  cbn [setAppState wasPinchingRef lastVideoTimeRef].
  unfold feed at 1. cbn [fst snd onVerdict]. unfold handDetected at 1.
  rewrite (pinchAction_pinch _ _ _ _ H3), (stateSwitching_pinch _ _ _ _ H3).
  cbn [setAppState wasPinchingRef lastVideoTimeRef].
  match goal with
  | |- context [feed camera (?a, ?r) (v4, n4)] =>
      destruct (idle v4 n4 a r H4) as (a4 & t4 & ->)
  end.
  reflexivity.
Qed.

Lemma pinch_rising_edge_witness :
  map onPinch
      (fst (session Fixtures.flatCamera (FORMED, initialRefs)
                    [(Some Fixtures.idle, 1000); (Some Fixtures.pinch, 1016);
                     (Some Fixtures.pinch, 1033); (None, 1050)]))
  = [None;
     Some (Fixtures.flatCamera (ndcX Fixtures.pinch) (ndcY Fixtures.pinch));
     None; None].
Proof.
  apply (pinch_rising_edge Fixtures.flatCamera (FORMED, initialRefs)
           (Some Fixtures.idle) 1000 Fixtures.pinch 1016 Fixtures.pinch 1033 None 1050);
    reflexivity || exact I.
Defined.

(** C8. A processed frame without a hand publishes the gesture with no
    flag set and the pointer at (0.5, 0.5), makes no other call, keeps the
    cooldown and puts [wasPinchingRef] to false, whatever it held.  A pinch
    on the next processed frame then hands a ray to [onPinch]. *)
Theorem lost_tracking_resets i st r :
  ready i = true ->
  JS.strict_neq (currentTime i) (lastVideoTimeRef r) = true ->
  results i = [] ->
  useFrame i st r
  = Some (mkRefs (currentTime i) (gestureTimeoutRef r) false,
          mkCalls (Some (mkGesture false false false (mkVec2 0.5 0.5))) None None) /\
  forall i' st' l others g,
    ready i' = true ->
    JS.strict_neq (currentTime i') (currentTime i) = true ->
    results i' = l :: others ->
    classify l = Some g ->
    isPinch g = true ->
    exists r',
      useFrame i' st' (mkRefs (currentTime i) (gestureTimeoutRef r) false)
      = Some (r', mkCalls (Some g) (Some (camera i' (ndcX g) (ndcY g))) None).
Proof.
  intros Hready Hnew Hres. split.
  - unfold useFrame. rewrite Hready, Hnew, Hres. reflexivity.
  - intros i' st' l others g Hready' Hnew' Hres' Hc Hp.
    unfold useFrame. rewrite Hready'. cbn [negb lastVideoTimeRef].
    rewrite Hnew', Hres', Hc. unfold handDetected.
    rewrite (pinchAction_pinch _ _ _ _ Hp), (stateSwitching_pinch _ _ _ _ Hp).
    cbn. eauto.
Qed.

Lemma lost_tracking_resets_witness :
  useFrame (mkInput true 0.5 [] 1000 Fixtures.flatCamera) FORMED (mkRefs 0.4 0 true)
  = Some (mkRefs 0.5 0 false, mkCalls (Some noHand) None None) /\
  exists r',
    useFrame (mkInput true 0.6 [Fixtures.pinchHand] 1016 Fixtures.flatCamera) FORMED
             (mkRefs 0.5 0 false)
    = Some (r', mkCalls (Some (mkGesture false false true (mkVec2 0.58999999999999997 0.5)))
                        (Some (mkRay (mkVec3 0.17999999999999994 0 10) (mkVec3 0 0 (-1))))
                        None).
Proof.
  destruct (lost_tracking_resets (mkInput true 0.5 [] 1000 Fixtures.flatCamera) FORMED
                                 (mkRefs 0.4 0 true))
    as [E K]; try reflexivity.
  split; [exact E |].
  apply (K (mkInput true 0.6 [Fixtures.pinchHand] 1016 Fixtures.flatCamera) FORMED
           Fixtures.pinchHand []
           (mkGesture false false true (mkVec2 0.58999999999999997 0.5)));
    vm_compute; reflexivity.
Defined.

End ControllerFacts.

(** ** The picker *)
Module PickerFacts.
Import PhotoCloud FloatOrderFacts.

(** What [(closestDist, closestId)] holds after the candidates [cs]: the
    initial values when none is within the threshold, and otherwise the
    distance and id of the first candidate that no candidate within the
    threshold is strictly closer than. *)
Definition scanned (ray : Ray) (cs : list Candidate) (acc : float * Z) : Prop :=
  (acc = (infinity, (-1)%Z) /\ forall c, In c cs -> (distSq ray c <? 5.0)%float = false) \/
  exists k c,
    nth_error cs k = Some c /\ acc = (distSq ray c, Z.of_nat (cid c)) /\
    (distSq ray c <? 5.0)%float = true /\
    (forall c', In c' cs -> (distSq ray c' <? 5.0)%float = true ->
                (distSq ray c' <? distSq ray c)%float = false) /\
    (forall j c', j < k -> nth_error cs j = Some c' -> (distSq ray c' <? 5.0)%float = true ->
                  (distSq ray c <? distSq ray c')%float = true).

Lemma near_below_infinity d : (d <? 5.0)%float = true -> (d <? infinity)%float = true.
Proof. intros H. apply (ltb_trans d 5.0 infinity H). reflexivity. Qed.

Lemma scanned_visit ray cs acc c :
  scanned ray cs acc -> scanned ray (cs ++ [c]) (visit ray acc c).
Proof.
  intros S. unfold visit.
  destruct (distSq ray c <? 5.0)%float eqn:N.
  - destruct (distSq ray c <? fst acc)%float eqn:L.
    + (* a new closest candidate, at the end of the list *)
      right. exists (length cs), c.
      rewrite nth_error_app2, Nat.sub_diag by lia.
      repeat split; auto.
      * intros c' Hin N'. apply in_app_iff in Hin. destruct Hin as [Hin | [<- | []]];
          [| apply ltb_irrefl].
        destruct S as [[-> Hnone] | (k & b & Hk & -> & Nb & Hmin & _)].
        -- rewrite (Hnone c' Hin) in N'. discriminate.
        -- apply ltb_asym. cbn [fst] in L.
           apply (ltb_below _ _ _ 5.0%float L (Hmin c' Hin N') N').
      * intros j c' Hj Hn N'. rewrite nth_error_app1 in Hn by exact Hj.
        apply nth_error_In in Hn.
        destruct S as [[-> Hnone] | (k & b & Hk & -> & Nb & Hmin & _)].
        -- rewrite (Hnone c' Hn) in N'. discriminate.
        -- cbn [fst] in L. apply (ltb_below _ _ _ 5.0%float L (Hmin c' Hn N') N').
    + (* within the threshold, not strictly closer: the accumulator stays *)
      destruct S as [[-> Hnone] | (k & b & Hk & -> & Nb & Hmin & Hfirst)].
      * cbn [fst] in L. rewrite (near_below_infinity _ N) in L. discriminate.
      * right. exists k, b.
        assert (Hlt : k < length cs) by (apply nth_error_Some; congruence).
        rewrite nth_error_app1 by exact Hlt. repeat split; auto.
        -- intros c' Hin N'. apply in_app_iff in Hin.
           destruct Hin as [Hin | [<- | []]]; [auto | exact L].
        -- intros j c' Hj Hn N'. rewrite nth_error_app1 in Hn by lia. eauto.
  - (* beyond the threshold *)
    destruct S as [[-> Hnone] | (k & b & Hk & -> & Nb & Hmin & Hfirst)].
    + left. split; [reflexivity |]. intros c' Hin. apply in_app_iff in Hin.
      destruct Hin as [Hin | [<- | []]]; auto.
    + right. exists k, b.
      assert (Hlt : k < length cs) by (apply nth_error_Some; congruence).
      rewrite nth_error_app1 by exact Hlt. repeat split; auto.
      * intros c' Hin N'. apply in_app_iff in Hin.
        destruct Hin as [Hin | [<- | []]]; [auto | congruence].
      * intros j c' Hj Hn N'. rewrite nth_error_app1 in Hn by lia. eauto.
Qed.

Lemma scanned_fold ray rest : forall cs acc,
  scanned ray cs acc -> scanned ray (cs ++ rest) (fold_left (visit ray) rest acc).
Proof.
  induction rest as [| c rest IH]; intros cs acc S; cbn [fold_left].
  - rewrite app_nil_r. exact S.
  - replace (cs ++ c :: rest) with ((cs ++ [c]) ++ rest)
      by (rewrite <- app_assoc; reflexivity).
    apply IH, scanned_visit, S.
Qed.

Lemma scanned_scan ray cs : scanned ray cs (scan ray cs).
Proof.
  apply (scanned_fold ray cs [] (infinity, (-1)%Z)).
  left. split; [reflexivity | intros c []].
Qed.

Lemma pick_scan ray cs :
  pick ray cs = if (snd (scan ray cs) =? -1)%Z then None else Some (snd (scan ray cs)).
Proof. reflexivity. Qed.

(** A miss leaves the ray in [rayRef]; a hit outside PHOTO_VIEW clears it. *)
Lemma picking_miss ray st active cs :
  pick ray cs = None -> picking st (Some ray) active cs = mkOutcome (Some ray) active None.
Proof. intros H. unfold picking. rewrite H. destruct st; reflexivity. Qed.

Lemma picking_hit ray st active cs i :
  pick ray cs = Some i -> st <> PHOTO_VIEW ->
  picking st (Some ray) active cs = mkOutcome None (Some i) (Some PHOTO_VIEW).
Proof. intros H N. unfold picking. rewrite H. destruct st; congruence. Qed.

(** C7. When the picker returns an id, it is the id of a candidate within
    the threshold (squared distance to the ray below 5.0) that no candidate
    within the threshold is strictly closer than, and that is strictly closer
    than every candidate within the threshold before it in the list; outside
    PHOTO_VIEW the picking block then selects that id, asks for PHOTO_VIEW and
    clears the ray.  When it returns no hit, no candidate is within the
    threshold, the state is not changed and the ray stays.  If every squared
    distance is at least 5.0, there is no hit. *)
Theorem pick_closest_within_threshold (ray : Ray) (cs : list Candidate) :
  match pick ray cs with
  | Some i =>
      (exists k c,
        nth_error cs k = Some c /\ i = Z.of_nat (cid c) /\
        (distSq ray c <? 5.0)%float = true /\
        (forall c', In c' cs -> (distSq ray c' <? 5.0)%float = true ->
                    (distSq ray c' <? distSq ray c)%float = false) /\
        (forall j c', j < k -> nth_error cs j = Some c' ->
                      (distSq ray c' <? 5.0)%float = true ->
                      (distSq ray c <? distSq ray c')%float = true)) /\
      (forall st active,
          st <> PHOTO_VIEW ->
          picking st (Some ray) active cs = mkOutcome None (Some i) (Some PHOTO_VIEW))
  | None =>
      (forall c, In c cs -> (distSq ray c <? 5.0)%float = false) /\
      (forall st active,
          picking st (Some ray) active cs = mkOutcome (Some ray) active None)
  end /\
  ((forall c, In c cs -> (5.0 <=? distSq ray c)%float = true) ->
   pick ray cs = None /\
   forall st active, setAppState (picking st (Some ray) active cs) = None).
Proof.
  assert (M : match pick ray cs with
              | Some i =>
                  exists k c,
                    nth_error cs k = Some c /\ i = Z.of_nat (cid c) /\
                    (distSq ray c <? 5.0)%float = true /\
                    (forall c', In c' cs -> (distSq ray c' <? 5.0)%float = true ->
                                (distSq ray c' <? distSq ray c)%float = false) /\
                    (forall j c', j < k -> nth_error cs j = Some c' ->
                                  (distSq ray c' <? 5.0)%float = true ->
                                  (distSq ray c <? distSq ray c')%float = true)
              | None => forall c, In c cs -> (distSq ray c <? 5.0)%float = false
              end).
  { rewrite pick_scan.
    destruct (scanned_scan ray cs) as [[-> Hnone] | (k & c & Hk & -> & N & Hmin & Hfirst)];
      cbn [snd].
    - exact Hnone.
    - destruct (Z.eqb_spec (Z.of_nat (cid c)) (-1)) as [E | _]; [lia |].
      exists k, c. auto. }
  split.
  - destruct (pick ray cs) as [i |] eqn:P.
    + split; [exact M |]. intros st active Hst. apply picking_hit; assumption.
    + split; [exact M |]. intros st active. apply picking_miss, P.
  - intros Hfar.
    assert (P : pick ray cs = None).
    { destruct (pick ray cs) as [i |]; [| reflexivity].
      destruct M as (k & c & Hk & _ & N & _). apply nth_error_In in Hk.
      rewrite (leb_not_gt _ _ (Hfar c Hk)) in N. discriminate. }
    split; [exact P |]. intros st active. rewrite (picking_miss _ _ _ _ P). reflexivity.
Qed.

(** The three candidates of the specification's test, a tie, and a list
    with every candidate at squared distance 5.0 or more. *)
Example pick_examples :
  map (distSq Fixtures.axisRay) Fixtures.threeCandidates
  = [4.9000000000000004; 2; 6.0099999999999998]%float /\
  pick Fixtures.axisRay Fixtures.threeCandidates = Some 1%Z /\
  map (distSq Fixtures.axisRay) Fixtures.tiedCandidates = [2; 2; 4]%float /\
  pick Fixtures.axisRay Fixtures.tiedCandidates = Some 4%Z /\
  map (distSq Fixtures.axisRay) Fixtures.farCandidates = [9; 5; 16]%float /\
  pick Fixtures.axisRay Fixtures.farCandidates = None.
Proof. repeat apply conj; vm_compute; reflexivity. Qed.

End PickerFacts.

(** ** The scene *)
Module SceneFacts.
Import Scene.

(** C1. The picker clears the ray only on a hit.  A pinch that hits no
    photo leaves its ray in [rayRef], and the picker reads it again on every
    later frame: a minute later, on a frame without any hand, a photo that has
    come within the threshold of that ray is selected and PHOTO_VIEW is
    requested, with no new ray handed over on that frame. *)
Theorem stale_ray_picks_later :
  option_map rayRef (run [Fixtures.pinchFrame] initialWorld)
  = Some (Some (mkRay (mkVec3 0.17999999999999994 0 10) (mkVec3 0 0 (-1)))) /\
  option_map appState (run [Fixtures.pinchFrame] initialWorld) = Some FORMED /\
  option_map activePhotoId (run [Fixtures.pinchFrame] initialWorld) = Some None /\
  (forall w, run [Fixtures.pinchFrame] initialWorld = Some w ->
     option_map (fun rc => HandController.onPinch (snd rc))
                (HandController.useFrame (hand Fixtures.laterFrame) (appState w) (refs w))
     = Some None) /\
  option_map appState (run [Fixtures.pinchFrame; Fixtures.laterFrame] initialWorld)
  = Some PHOTO_VIEW /\
  option_map activePhotoId (run [Fixtures.pinchFrame; Fixtures.laterFrame] initialWorld)
  = Some (Some 3%Z) /\
  option_map rayRef (run [Fixtures.pinchFrame; Fixtures.laterFrame] initialWorld)
  = Some None.
Proof.
  repeat apply conj; try (vm_compute; reflexivity).
  intros w. vm_compute. intros E. injection E as <-. reflexivity.
Qed.

(** The same defect from PHOTO_VIEW, where the picker does not look at the
    ray at all: the ray of a pinch made while a photo is viewed outlives the
    view.  The open hand then asks for CHAOS, and on the next frame, with no
    hand in the image, the old ray selects a photo and asks for PHOTO_VIEW
    again. *)
Lemma pinch_while_viewing_fires_after_leaving :
  option_map appState
    (run [Fixtures.pinchWhileViewing; Fixtures.openToLeave] Fixtures.viewing)
  = Some CHAOS /\
  option_map rayRef
    (run [Fixtures.pinchWhileViewing; Fixtures.openToLeave] Fixtures.viewing)
  = Some (Some (mkRay (mkVec3 0.17999999999999994 0 10) (mkVec3 0 0 (-1)))) /\
  option_map appState
    (run [Fixtures.pinchWhileViewing; Fixtures.openToLeave; Fixtures.handAway]
         Fixtures.viewing)
  = Some PHOTO_VIEW /\
  option_map activePhotoId
    (run [Fixtures.pinchWhileViewing; Fixtures.openToLeave; Fixtures.handAway]
         Fixtures.viewing)
  = Some (Some 3%Z).
Proof. repeat apply conj; vm_compute; reflexivity. Qed.

(** C10. The application starts in FORMED, with morph progress 1.  A frame
    changes the state only to what the controller or the picker passed to
    [setAppState] on that frame. *)
Theorem starts_formed :
  initialAppState = FORMED /\
  appState initialWorld = FORMED /\
  initialProgress (appState initialWorld) = 1%float /\
  forall f w,
    match frame f w with
    | Some w' =>
        appState w' = appState w \/
        exists r calls,
          HandController.useFrame (hand f) (appState w) (refs w) = Some (r, calls) /\
          (HandController.setAppState calls = Some (appState w') \/
           PhotoCloud.setAppState
             (PhotoCloud.useFrame (mounted f) (appState w)
                                  (lastCall (rayRef w) (HandController.onPinch calls))
                                  (activePhotoId w) (children f))
           = Some (appState w'))
    | None => True
    end.
Proof.
  repeat apply conj; try reflexivity.
  intros f w. unfold frame.
  destruct (HandController.useFrame (hand f) (appState w) (refs w)) as [[r calls] |];
    [| exact I].
  cbn [appState].
  destruct (PhotoCloud.setAppState _) as [a |] eqn:P; cbn [lastCall orKeep].
  - right. exists r, calls. split; [reflexivity |]. right. exact P.
  - destruct (HandController.setAppState calls) as [a |] eqn:H; cbn [orKeep].
    + right. exists r, calls. split; [reflexivity |]. left. exact H.
    + left. reflexivity.
Qed.

End SceneFacts.


(** * Further properties of the code *)

(** ** More on the order of binary64 values *)
Module FloatNumberFacts.
Import FloatOrder FloatOrderFacts.

Lemma lex_refl p : lex p p = Eq.
Proof. destruct p as [[a b] c]. unfold lex. rewrite !Z.compare_refl. reflexivity. Qed.

(** [v === v] holds exactly for the values that are not NaN. *)
Lemma eqb_self a : (a =? a)%float = negb (sf_nan (Prim2SF a)).
Proof.
  rewrite eqb_spec. unfold SFeqb. rewrite SFcompare_lex, orb_diag.
  destruct (sf_nan (Prim2SF a)); [reflexivity |]. rewrite lex_refl. reflexivity.
Qed.

Lemma number_not_nan a : (a =? a)%float = true -> sf_nan (Prim2SF a) = false.
Proof. rewrite eqb_self. destruct (sf_nan _); [discriminate | reflexivity]. Qed.

Lemma leb_lex a b :
  (a <=? b)%float = true <->
  sf_nan (Prim2SF a) = false /\ sf_nan (Prim2SF b) = false /\
  lex (rank (Prim2SF a)) (rank (Prim2SF b)) <> Gt.
Proof.
  rewrite leb_spec. unfold SFleb. rewrite SFcompare_lex.
  destruct (sf_nan (Prim2SF a)), (sf_nan (Prim2SF b)); cbn;
    try (split; [discriminate | intros (? & ? & ?); discriminate]).
  destruct (lex _ _); split; intros; try discriminate; auto.
  - repeat split; discriminate.
  - repeat split; discriminate.
  - destruct H as (_ & _ & H). congruence.
Qed.

Lemma lex_Gt p q :
  lex p q = Gt <->
  let '(a1, b1, c1) := p in
  let '(a2, b2, c2) := q in
  (a2 < a1 \/ (a1 = a2 /\ (b2 < b1 \/ (b1 = b2 /\ c2 < c1))))%Z.
Proof.
  destruct p as [[a1 b1] c1], q as [[a2 b2] c2]. unfold lex.
  destruct (Z.compare_spec a1 a2), (Z.compare_spec b1 b2), (Z.compare_spec c1 c2);
    split; intros; try discriminate; try reflexivity; lia.
Qed.

(** Between numbers, "not below" is "at least". *)
Lemma not_ltb_leb a b :
  (a =? a)%float = true -> (b =? b)%float = true ->
  (a <? b)%float = false -> (b <=? a)%float = true.
Proof.
  intros Ha Hb H. apply number_not_nan in Ha, Hb.
  apply leb_lex. repeat split; auto. intros G.
  rewrite (proj2 (ltb_lex a b)) in H; [discriminate |]. repeat split; auto.
  revert G. rewrite lex_Gt, lex_Lt. ranks. lia.
Qed.

Lemma ltb_leb a b : (a <? b)%float = true -> (a <=? b)%float = true.
Proof.
  rewrite ltb_lex, leb_lex. intros (Ha & Hb & H). repeat split; auto. congruence.
Qed.

Lemma ltb_leb_trans a b c :
  (a <? b)%float = true -> (b <=? c)%float = true -> (a <? c)%float = true.
Proof.
  rewrite !ltb_lex, leb_lex. intros (Ha & Hb & H1) (_ & Hc & H2). repeat split; auto.
  assert (G : ~ (lex (rank (Prim2SF b)) (rank (Prim2SF c)) = Gt)) by exact H2.
  revert H1 G. rewrite lex_Gt, !lex_Lt. ranks. lia.
Qed.

Lemma ltb_number_l a b : (a <? b)%float = true -> (a =? a)%float = true.
Proof. rewrite ltb_lex, eqb_self. intros (-> & _). reflexivity. Qed.

Lemma ltb_number_r a b : (a <? b)%float = true -> (b =? b)%float = true.
Proof. rewrite ltb_lex, eqb_self. intros (_ & -> & _). reflexivity. Qed.

End FloatNumberFacts.

(** ** The classifier, continued *)
Module ClassifierMore.
Import HandController FloatOrderFacts FloatNumberFacts.

(** What a published gesture of a detected hand is made of. *)
Lemma classify_inv (l : Landmarks) (g : HandGesture) :
  classify l = Some g ->
  exists avg nonIndex cand spread raw,
    avgRatio l = Some avg /\ nonIndexRatio l = Some nonIndex /\
    isPinchCandidate l = Some cand /\ spreadFactor l = Some spread /\
    rawPosition l (isPinch g) = Some raw /\
    flags avg nonIndex spread cand = (isFist g, isPinch g, isOpen g) /\
    position g = mkVec2 (1 - x raw) (y raw).
Proof.
  unfold classify. intros H.
  destruct (avgRatio l) as [avg |]; [| discriminate].
  destruct (nonIndexRatio l) as [ni |]; [| discriminate].
  destruct (isPinchCandidate l) as [cand |]; [| discriminate].
  destruct (spreadFactor l) as [sp |]; [| discriminate].
  destruct (flags avg ni sp cand) as [[fist pinch] open] eqn:F.
  destruct (rawPosition l pinch) as [raw |] eqn:R; [| discriminate].
  injection H as <-. cbn. exists avg, ni, cand, sp, raw. repeat split; auto.
Qed.

(** X1. The three flags of a published gesture exclude each other. *)
Theorem verdict_exclusive (l : Landmarks) (g : HandGesture) :
  classify l = Some g ->
  (isFist g = true -> isPinch g = false /\ isOpen g = false) /\
  (isPinch g = true -> isFist g = false /\ isOpen g = false) /\
  (isOpen g = true -> isFist g = false /\ isPinch g = false).
Proof.
  intros H. destruct (classify_inv l g H) as (avg & ni & cand & sp & raw & _ & _ & _ & _ & _ & F & _).
  pose proof (ClassifierFacts.flags_exclusive avg ni sp cand) as E.
  rewrite F in E. exact E.
Qed.

Lemma verdict_exclusive_witness :
  (isFist (mkGesture false false true (mkVec2 0.58999999999999997 0.5)) = true ->
   isPinch (mkGesture false false true (mkVec2 0.58999999999999997 0.5)) = false /\
   isOpen (mkGesture false false true (mkVec2 0.58999999999999997 0.5)) = false) /\
  (isPinch (mkGesture false false true (mkVec2 0.58999999999999997 0.5)) = true ->
   isFist (mkGesture false false true (mkVec2 0.58999999999999997 0.5)) = false /\
   isOpen (mkGesture false false true (mkVec2 0.58999999999999997 0.5)) = false) /\
  (isOpen (mkGesture false false true (mkVec2 0.58999999999999997 0.5)) = true ->
   isFist (mkGesture false false true (mkVec2 0.58999999999999997 0.5)) = false /\
   isPinch (mkGesture false false true (mkVec2 0.58999999999999997 0.5)) = false).
Proof.
  apply (verdict_exclusive Fixtures.pinchHand). vm_compute. reflexivity.
Defined.

(** X2. When the average curl ratio is a number, the test [avgRatio > 1.25]
    of the open rule never decides: the rule is reached only with
    [avgRatio >= 1.35].  A hand that is neither fist nor pinch is open
    exactly when [avgRatio > 1.5] or [spreadFactor > 1.6]. *)
Theorem open_rule_without_curl_guard (l : Landmarks) (g : HandGesture) (avg spread : float) :
  classify l = Some g ->
  avgRatio l = Some avg ->
  spreadFactor l = Some spread ->
  (avg =? avg)%float = true ->
  isOpen g
  = negb (isFist g) && negb (isPinch g) && ((1.5 <? avg)%float || (1.6 <? spread)%float).
Proof.
  intros H Havg Hsp Hnum.
  destruct (classify_inv l g H) as (avg' & ni & cand & sp' & raw & E1 & _ & _ & E2 & _ & F & _).
  rewrite Havg in E1. injection E1 as <-. rewrite Hsp in E2. injection E2 as <-.
  unfold flags in F.
  destruct (avg <? 1.35)%float eqn:L; [injection F as <- <- <-; reflexivity |].
  destruct (cand && (1.2 <? ni)%float); [injection F as <- <- <-; reflexivity |].
  assert (G : (1.25 <? avg)%float = true).
  { apply (ltb_leb_trans 1.25 1.35 avg); [reflexivity |].
    apply not_ltb_leb; [exact Hnum | reflexivity | exact L]. }
  rewrite G, andb_true_r in F.
  destruct ((1.5 <? avg)%float || (1.6 <? spread)%float);
    injection F as <- <- <-; reflexivity.
Qed.

Lemma open_rule_without_curl_guard_witness :
  isOpen (mkGesture false true false (mkVec2 0.5 0.59999999999999998))
  = negb (isFist (mkGesture false true false (mkVec2 0.5 0.59999999999999998)))
    && negb (isPinch (mkGesture false true false (mkVec2 0.5 0.59999999999999998)))
    && ((1.5 <? 2.2454016100637411)%float || (1.6 <? 2.1000000000000005)%float).
Proof.
  apply (open_rule_without_curl_guard Fixtures.openHand); vm_compute; reflexivity.
Defined.

(** X3. The gesture depends on ten landmarks only: wrist, thumb tip, and
    knuckle and tip of the four fingers.  Two hands of 21 landmarks that
    agree on these get the same gesture. *)
Theorem classify_reads_ten_landmarks (l l' : Landmarks) :
  length l = 21 -> length l' = 21 ->
  Forall (fun i => nth_error l i = nth_error l' i) [0; 4; 5; 8; 9; 12; 13; 16; 17; 20] ->
  classify l = classify l'.
Proof.
  intros H H' A.
  ClassifierFacts.hand21 l H. ClassifierFacts.hand21 l' H'.
  repeat match goal with
         | A : Forall _ (_ :: _) |- _ =>
             let E := fresh "E" in
             inversion A as [| ? ? E A']; subst; clear A; rename A' into A;
             cbn in E; injection E as ->
         end.
  reflexivity.
Qed.

Lemma classify_reads_ten_landmarks_witness :
  classify Fixtures.pinchHand = classify Samples.pinchHandMoved.
Proof.
  apply classify_reads_ten_landmarks; [reflexivity | reflexivity |].
  repeat constructor.
Defined.

End ClassifierMore.

(** ** The controller, continued *)
Module ControllerMore.
Import HandController ControllerFacts FloatNumberFacts.

Local Open Scope Z_scope.

(** What the three outputs of a frame with a hand are, flag by flag. *)
Lemma handDetected_pinch camera g now st r :
  isPinch g = true ->
  handDetected camera g now st r
  = (mkRefs (lastVideoTimeRef r) (now + 500) true,
     mkCalls (Some g)
             (if wasPinchingRef r then None else Some (camera (ndcX g) (ndcY g)))
             None).
Proof.
  intros Hp. unfold handDetected.
  rewrite (pinchAction_pinch _ _ _ _ Hp), (stateSwitching_pinch _ _ _ _ Hp). reflexivity.
Qed.

Lemma handDetected_idle camera g now st r :
  isPinch g = false ->
  handDetected camera g now st r
  = (fst (stateSwitching g now st (mkRefs (lastVideoTimeRef r) (gestureTimeoutRef r) false)),
     mkCalls (Some g) None
             (snd (stateSwitching g now st
                     (mkRefs (lastVideoTimeRef r) (gestureTimeoutRef r) false)))).
Proof.
  intros Hp. unfold handDetected. rewrite (pinchAction_idle _ _ _ _ Hp).
  destruct (stateSwitching _ _ _ _). reflexivity.
Qed.

(** No state is requested on a frame that is not after the cooldown. *)
Lemma no_switch_during_cooldown camera v now st r :
  now <= gestureTimeoutRef r ->
  setAppState (snd (onVerdict camera v now st r)) = None.
Proof.
  intros Hnow. destruct v as [g |]; [| reflexivity]. cbn [onVerdict].
  destruct (isPinch g) eqn:Hp.
  - rewrite (handDetected_pinch _ _ _ _ _ Hp). reflexivity.
  - rewrite (handDetected_idle _ _ _ _ _ Hp). cbn [snd setAppState].
    unfold stateSwitching. cbn [gestureTimeoutRef].
    rewrite (proj2 (Z.ltb_ge _ _) Hnow). reflexivity.
Qed.

(** The one place where a state is asked for. *)
Lemma stateSwitching_inv g now st r r' a :
  stateSwitching g now st r = (r', Some a) ->
  isPinch g = false /\ gestureTimeoutRef r < now /\
  gestureTimeoutRef r' = now + 1000 /\
  ((isFist g = true /\ st = CHAOS /\ a = FORMED) \/
   (isFist g = false /\ isOpen g = true /\ st <> CHAOS /\ a = CHAOS)).
Proof.
  unfold stateSwitching. intros H.
  destruct (gestureTimeoutRef r <? now) eqn:T; [| discriminate].
  apply Z.ltb_lt in T.
  destruct (isPinch g); [discriminate |]. cbn [andb negb] in H.
  destruct (isFist g), (isOpen g), st; try discriminate;
    injection H as <- <-; repeat split; auto;
    (left; repeat split; congruence) || (right; repeat split; congruence).
Qed.

Lemma onVerdict_switch camera v now st r a :
  setAppState (snd (onVerdict camera v now st r)) = Some a ->
  exists g,
    v = Some g /\
    stateSwitching g now st (mkRefs (lastVideoTimeRef r) (gestureTimeoutRef r) false)
    = (fst (onVerdict camera v now st r), Some a).
Proof.
  intros H. destruct v as [g |]; [| discriminate]. exists g. split; [reflexivity |].
  cbn [onVerdict] in *.
  destruct (isPinch g) eqn:Hp.
  - rewrite (handDetected_pinch _ _ _ _ _ Hp) in H. discriminate.
  - rewrite (handDetected_idle _ _ _ _ _ Hp) in *. cbn [fst snd setAppState] in *.
    rewrite <- H. destruct (stateSwitching _ _ _ _). reflexivity.
Qed.

(** X4. The controller asks for a state only on a frame with a hand that
    does not pinch, after the cooldown; the state it asks for is never
    PHOTO_VIEW and never the current one (FORMED for a fist in CHAOS, CHAOS
    for an open hand in FORMED or PHOTO_VIEW), and the cooldown is set to
    [now + 1000]. *)
Theorem state_switch_conditions camera v now st r a :
  setAppState (snd (onVerdict camera v now st r)) = Some a ->
  exists g,
    v = Some g /\ isPinch g = false /\ gestureTimeoutRef r < now /\
    a <> st /\ a <> PHOTO_VIEW /\
    gestureTimeoutRef (fst (onVerdict camera v now st r)) = now + 1000 /\
    ((isFist g = true /\ st = CHAOS /\ a = FORMED) \/
     (isFist g = false /\ isOpen g = true /\ st <> CHAOS /\ a = CHAOS)).
Proof.
  intros H. destruct (onVerdict_switch _ _ _ _ _ _ H) as (g & -> & S).
  destruct (stateSwitching_inv _ _ _ _ _ _ S) as (Hp & Hnow & Harm & Hcase).
  exists g. cbn [gestureTimeoutRef] in Hnow.
  repeat split; auto.
  - destruct Hcase as [(_ & -> & ->) | (_ & _ & N & ->)]; congruence.
  - destruct Hcase as [(_ & _ & ->) | (_ & _ & _ & ->)]; discriminate.
Qed.

Lemma state_switch_conditions_witness :
  exists g,
    Some Fixtures.open = Some g /\ isPinch g = false /\
    gestureTimeoutRef (mkRefs 0 2000 false) < 2500 /\
    CHAOS <> PHOTO_VIEW /\ CHAOS <> PHOTO_VIEW /\
    gestureTimeoutRef
      (fst (onVerdict Fixtures.flatCamera (Some Fixtures.open) 2500 PHOTO_VIEW
                      (mkRefs 0 2000 false))) = 2500 + 1000 /\
    ((isFist g = true /\ PHOTO_VIEW = CHAOS /\ CHAOS = FORMED) \/
     (isFist g = false /\ isOpen g = true /\ PHOTO_VIEW <> CHAOS /\ CHAOS = CHAOS)).
Proof.
  apply (state_switch_conditions Fixtures.flatCamera (Some Fixtures.open) 2500 PHOTO_VIEW
                                 (mkRefs 0 2000 false) CHAOS).
  reflexivity.
Defined.

(** X5. After a frame on which the controller asked for a state at time
    [n1], no frame up to [n1 + 1000] asks for one, whatever its verdict and
    whatever the state then. *)
Theorem no_switch_within_a_second camera v1 n1 st1 r a v2 n2 st2 :
  setAppState (snd (onVerdict camera v1 n1 st1 r)) = Some a ->
  n2 <= n1 + 1000 ->
  setAppState (snd (onVerdict camera v2 n2 st2 (fst (onVerdict camera v1 n1 st1 r)))) = None.
Proof.
  intros H Hn. apply no_switch_during_cooldown.
  destruct (onVerdict_switch _ _ _ _ _ _ H) as (g & _ & S).
  destruct (stateSwitching_inv _ _ _ _ _ _ S) as (_ & _ & -> & _).
  exact Hn.
Qed.

Lemma no_switch_within_a_second_witness :
  setAppState
    (snd (onVerdict Fixtures.flatCamera (Some Fixtures.open) 2000 FORMED
            (fst (onVerdict Fixtures.flatCamera (Some Fixtures.fist) 1000 CHAOS initialRefs))))
  = None.
Proof.
  apply (no_switch_within_a_second Fixtures.flatCamera (Some Fixtures.fist) 1000 CHAOS
           initialRefs FORMED (Some Fixtures.open) 2000 FORMED).
  - reflexivity.
  - cbn. lia.
Defined.

(** X6. A pinch holds state switching off: after a frame with a pinch at
    time [n1], no frame up to [n1 + 500] asks for a state. *)
Theorem no_switch_after_pinch camera g1 n1 st1 r v2 n2 st2 :
  isPinch g1 = true ->
  n2 <= n1 + 500 ->
  setAppState
    (snd (onVerdict camera v2 n2 st2 (fst (onVerdict camera (Some g1) n1 st1 r)))) = None.
Proof.
  intros Hp Hn. apply no_switch_during_cooldown. cbn [onVerdict].
  rewrite (handDetected_pinch _ _ _ _ _ Hp). exact Hn.
Qed.

Lemma no_switch_after_pinch_witness :
  setAppState
    (snd (onVerdict Fixtures.flatCamera (Some Fixtures.open) 1400 FORMED
            (fst (onVerdict Fixtures.flatCamera (Some Fixtures.pinch) 1000 FORMED
                            initialRefs))))
  = None.
Proof.
  apply (no_switch_after_pinch Fixtures.flatCamera Fixtures.pinch 1000 FORMED initialRefs
           (Some Fixtures.open) 1400 FORMED).
  - reflexivity.
  - cbn. lia.
Defined.

(** X7. A ray is handed to [onPinch] exactly on a pinch with
    [wasPinchingRef] false, and [wasPinchingRef] is then true: the frame
    after a frame with a ray never has one. *)
Theorem no_ray_on_consecutive_frames camera v1 n1 st1 r ray v2 n2 st2 :
  onPinch (snd (onVerdict camera v1 n1 st1 r)) = Some ray ->
  wasPinchingRef r = false /\
  (exists g, v1 = Some g /\ isPinch g = true /\ ray = camera (ndcX g) (ndcY g)) /\
  onPinch (snd (onVerdict camera v2 n2 st2 (fst (onVerdict camera v1 n1 st1 r)))) = None.
Proof.
  intros H. destruct v1 as [g |]; [| discriminate]. cbn [onVerdict] in *.
  destruct (isPinch g) eqn:Hp.
  - rewrite (handDetected_pinch _ _ _ _ _ Hp) in *. cbn [fst snd onPinch] in *.
    destruct (wasPinchingRef r); [discriminate |]. injection H as <-.
    split; [reflexivity |]. split; [eauto |].
    destruct v2 as [g2 |]; [| reflexivity]. cbn [onVerdict].
    destruct (isPinch g2) eqn:Hp2.
    + rewrite (handDetected_pinch _ _ _ _ _ Hp2). reflexivity.
    + rewrite (handDetected_idle _ _ _ _ _ Hp2). reflexivity.
  - rewrite (handDetected_idle _ _ _ _ _ Hp) in H. discriminate.
Qed.

Lemma no_ray_on_consecutive_frames_witness :
  onPinch
    (snd (onVerdict Fixtures.flatCamera (Some Fixtures.pinch) 1016 FORMED
            (fst (onVerdict Fixtures.flatCamera (Some Fixtures.pinch) 1000 FORMED
                            initialRefs))))
  = None.
Proof.
  apply (no_ray_on_consecutive_frames Fixtures.flatCamera (Some Fixtures.pinch) 1000 FORMED
           initialRefs
           (Fixtures.flatCamera (ndcX Fixtures.pinch) (ndcY Fixtures.pinch))
           (Some Fixtures.pinch) 1016 FORMED).
  reflexivity.
Defined.

End ControllerMore.

(** ** The frame callback of the controller *)
Module FrameFacts.
Import HandController ControllerFacts ControllerMore FloatNumberFacts.

Lemma handDetected_lastVideoTime camera g now st r :
  lastVideoTimeRef (fst (handDetected camera g now st r)) = lastVideoTimeRef r.
Proof.
  destruct (isPinch g) eqn:Hp.
  - rewrite (handDetected_pinch _ _ _ _ _ Hp). reflexivity.
  - rewrite (handDetected_idle _ _ _ _ _ Hp). cbn [fst]. unfold stateSwitching.
    destruct (_ && _); [| reflexivity].
    destruct (isFist g), (isOpen g), st; reflexivity.
Qed.

Lemma handDetected_wasPinching camera g now st r :
  wasPinchingRef (fst (handDetected camera g now st r)) = isPinch g.
Proof.
  destruct (isPinch g) eqn:Hp.
  - rewrite (handDetected_pinch _ _ _ _ _ Hp). reflexivity.
  - rewrite (handDetected_idle _ _ _ _ _ Hp). cbn [fst]. unfold stateSwitching.
    destruct (_ && _); [| reflexivity].
    destruct (isFist g), (isOpen g), st; reflexivity.
Qed.

Lemma handDetected_setGesture camera g now st r :
  setGesture (snd (handDetected camera g now st r)) = Some g.
Proof.
  destruct (isPinch g) eqn:Hp.
  - rewrite (handDetected_pinch _ _ _ _ _ Hp). reflexivity.
  - rewrite (handDetected_idle _ _ _ _ _ Hp). reflexivity.
Qed.

(** X8. A video frame is processed once: after a run of the callback on a
    frame whose [currentTime] is a number, a run on the same [currentTime]
    makes no call and leaves the refs as they are. *)
Theorem repeated_video_frame_skipped i st r r' c i' st' :
  useFrame i st r = Some (r', c) ->
  ready i = true ->
  (currentTime i =? currentTime i)%float = true ->
  currentTime i' = currentTime i ->
  useFrame i' st' r' = Some (r', noCalls).
Proof.
  intros H Hready Hnum Ht.
  assert (S : JS.strict_neq (currentTime i') (lastVideoTimeRef r') = false).
  { unfold useFrame in H. rewrite Hready in H. cbn [negb] in H.
    destruct (JS.strict_neq (currentTime i) (lastVideoTimeRef r)) eqn:N.
    - assert (L : lastVideoTimeRef r' = currentTime i).
      { destruct (results i) as [| l others].
        - unfold noHandDetected in H. injection H as <- _. reflexivity.
        - destruct (classify l) as [g |]; [| discriminate]. injection H as H.
          rewrite <- (f_equal fst H : _ = r'), handDetected_lastVideoTime.
          reflexivity. }
      rewrite L, Ht. unfold JS.strict_neq. rewrite Hnum. reflexivity.
    - injection H as <- _. rewrite Ht. exact N. }
  unfold useFrame. rewrite S. destruct (negb (ready i')); reflexivity.
Qed.

Lemma repeated_video_frame_skipped_witness :
  useFrame (mkInput true 0.6 [Fixtures.openHand] 1020 Fixtures.flatCamera) CHAOS
           (mkRefs 0.6 1500 true)
  = Some (mkRefs 0.6 1500 true, noCalls).
Proof.
  apply (repeated_video_frame_skipped
           (mkInput true 0.6 [Fixtures.pinchHand] 1000 Fixtures.flatCamera) FORMED
           (mkRefs 0.5 0 false) (mkRefs 0.6 1500 true)
           (mkCalls (Some (mkGesture false false true (mkVec2 0.58999999999999997 0.5)))
                    (Some (mkRay (mkVec3 0.17999999999999994 0 10) (mkVec3 0 0 (-1))))
                    None)).
  - vm_compute. reflexivity.
  - reflexivity.
  - reflexivity.
  - reflexivity.
Defined.

(** X9. After every processed frame [wasPinchingRef] is the pinch flag of
    the gesture that frame published. *)
Theorem wasPinching_is_published_pinch i st r r' c g :
  useFrame i st r = Some (r', c) ->
  setGesture c = Some g ->
  wasPinchingRef r' = isPinch g.
Proof.
  unfold useFrame. intros H G.
  destruct (negb (ready i)); [injection H as <- <-; discriminate |].
  destruct (JS.strict_neq _ _); [| injection H as <- <-; discriminate].
  destruct (results i) as [| l others].
  - unfold noHandDetected in H. injection H as <- <-. injection G as <-. reflexivity.
  - destruct (classify l) as [g' |]; [| discriminate].
    injection H as H.
    rewrite <- (f_equal fst H : _ = r'), <- (f_equal snd H : _ = c) in *.
    rewrite handDetected_setGesture in G. injection G as <-.
    apply handDetected_wasPinching.
Qed.

Lemma wasPinching_is_published_pinch_witness :
  wasPinchingRef (mkRefs 0.6 1500 true)
  = isPinch (mkGesture false false true (mkVec2 0.58999999999999997 0.5)).
Proof.
  apply (wasPinching_is_published_pinch
           (mkInput true 0.6 [Fixtures.pinchHand] 1000 Fixtures.flatCamera) FORMED
           (mkRefs 0.5 0 false) (mkRefs 0.6 1500 true)
           (mkCalls (Some (mkGesture false false true (mkVec2 0.58999999999999997 0.5)))
                    (Some (mkRay (mkVec3 0.17999999999999994 0 10) (mkVec3 0 0 (-1))))
                    None)).
  - vm_compute. reflexivity.
  - reflexivity.
Defined.

(** X10. The ray handed to [onPinch] is cast through the mirrored midpoint
    of thumb tip and index tip of the first detected hand, never through the
    centre of the palm. *)
Theorem pinch_ray_through_fingertips i st r r' c ray :
  useFrame i st r = Some (r', c) ->
  onPinch c = Some ray ->
  exists l others t f,
    results i = l :: others /\ nth_error l 4 = Some t /\ nth_error l 8 = Some f /\
    ray = camera i ((1 - (x t + x f) / 2) * 2 - 1)%float
                   (- ((y t + y f) / 2 * 2) + 1)%float.
Proof.
  unfold useFrame. intros H P.
  destruct (negb (ready i)); [injection H as <- <-; discriminate |].
  destruct (JS.strict_neq _ _); [| injection H as <- <-; discriminate].
  destruct (results i) as [| l others];
    [unfold noHandDetected in H; injection H as <- <-; discriminate |].
  destruct (classify l) as [g |] eqn:C; [| discriminate].
  injection H as H. rewrite <- (f_equal snd H : _ = c) in P. clear H.
  destruct (isPinch g) eqn:Hp.
  - rewrite (handDetected_pinch _ _ _ _ _ Hp) in P. cbn [snd onPinch] in P.
    destruct (wasPinchingRef _); [discriminate |]. injection P as <-.
    destruct (ClassifierMore.classify_inv l g C)
      as (avg & ni & cand & sp & raw & _ & _ & _ & _ & R & _ & Pos).
    rewrite Hp in R. unfold rawPosition in R.
    destruct (pinchDist l) as [d |]; [| discriminate]. cbn [orb] in R.
    unfold at_ in R.
    destruct (nth_error l 4) as [t |] eqn:T; [| discriminate].
    destruct (nth_error l 8) as [f |] eqn:F; [| discriminate].
    injection R as <-. exists l, others, t, f.
    unfold ndcX, ndcY. rewrite Pos. repeat split; assumption.
  - rewrite (handDetected_idle _ _ _ _ _ Hp) in P. discriminate.
Qed.

Lemma pinch_ray_through_fingertips_witness :
  exists l others t f,
    [Fixtures.pinchHand] = l :: others /\ nth_error l 4 = Some t /\ nth_error l 8 = Some f /\
    mkRay (mkVec3 0.17999999999999994 0 10) (mkVec3 0 0 (-1))
    = Fixtures.flatCamera ((1 - (x t + x f) / 2) * 2 - 1)%float
                          (- ((y t + y f) / 2 * 2) + 1)%float.
Proof.
  apply (pinch_ray_through_fingertips
           (mkInput true 0.6 [Fixtures.pinchHand] 1000 Fixtures.flatCamera) FORMED
           (mkRefs 0.5 0 false) (mkRefs 0.6 1500 true)
           (mkCalls (Some (mkGesture false false true (mkVec2 0.58999999999999997 0.5)))
                    (Some (mkRay (mkVec3 0.17999999999999994 0 10) (mkVec3 0 0 (-1))))
                    None)).
  - vm_compute. reflexivity.
  - reflexivity.
Defined.

End FrameFacts.

(** ** The picker and the scene, continued *)
Module SceneMore.
Import Scene FloatOrderFacts.

Local Open Scope Z_scope.

Lemma combine_seq_nth (children : list Vec3) : forall n s k i p,
  nth_error (combine (seq s n) children) k = Some (i, p) ->
  i = (s + k)%nat /\ (k < n)%nat /\ nth_error children k = Some p.
Proof.
  induction children as [| c children IH]; intros n s k i p H.
  - destruct n; destruct k; discriminate.
  - destruct n as [| n]; [destruct k; discriminate |].
    destruct k as [| k]; cbn in H.
    + injection H as <- <-. repeat split; lia.
    + destruct (IH n (S s) k i p H) as (-> & Hk & Hp). repeat split; [lia | lia | exact Hp].
Qed.

(** The candidate at place [k] is the child at [k], with id [k]. *)
Lemma candidates_nth children k c :
  nth_error (PhotoCloud.candidates children) k = Some c ->
  PhotoCloud.cid c = k /\ (k < 12)%nat /\
  nth_error children k = Some (PhotoCloud.worldPosition c).
Proof.
  unfold PhotoCloud.candidates. rewrite nth_error_map.
  destruct (nth_error (combine PhotoCloud.photos children) k) as [[i p] |] eqn:E;
    [| discriminate].
  cbn. intros H. injection H as <-. cbn.
  apply combine_seq_nth in E. exact E.
Qed.

(** The ids the picker returns on the children of the group are photo ids. *)
Lemma pick_below_12 ray children i :
  PhotoCloud.pick ray (PhotoCloud.candidates children) = Some i -> 0 <= i < 12.
Proof.
  rewrite PickerFacts.pick_scan. intros H.
  destruct (PickerFacts.scanned_scan ray (PhotoCloud.candidates children))
    as [[E _] | (k & c & Hk & E & _)]; rewrite E in H; cbn [snd] in H.
  - discriminate.
  - destruct (Z.eqb_spec (Z.of_nat (PhotoCloud.cid c)) (-1)); [lia |].
    injection H as <-. destruct (candidates_nth _ _ _ Hk) as (-> & Hlt & _). lia.
Qed.

(** X11. When the picker selects among the children of the group, the id
    it returns is the place of a child, below 12, whose world position is at
    squared distance below 5.0 of the ray. *)
Theorem pick_is_child_index ray children i :
  PhotoCloud.pick ray (PhotoCloud.candidates children) = Some i ->
  exists k p,
    i = Z.of_nat k /\ (k < 12)%nat /\ nth_error children k = Some p /\
    (THREE.distanceSqToPoint ray p <? 5.0)%float = true.
Proof.
  rewrite PickerFacts.pick_scan. intros H.
  destruct (PickerFacts.scanned_scan ray (PhotoCloud.candidates children))
    as [[E _] | (k & c & Hk & E & N & _)]; rewrite E in H; cbn [snd] in H.
  - discriminate.
  - destruct (Z.eqb_spec (Z.of_nat (PhotoCloud.cid c)) (-1)); [lia |].
    injection H as <-.
    destruct (candidates_nth _ _ _ Hk) as (Hc & Hlt & Hp).
    exists k, (PhotoCloud.worldPosition c). rewrite Hc. repeat split; auto.
Qed.

Lemma pick_is_child_index_witness :
  exists k p,
    3 = Z.of_nat k /\ (k < 12)%nat /\ nth_error Fixtures.photoOnRay k = Some p /\
    (THREE.distanceSqToPoint
       (mkRay (mkVec3 0.17999999999999994 0 10) (mkVec3 0 0 (-1))) p <? 5.0)%float = true.
Proof.
  apply (pick_is_child_index
           (mkRay (mkVec3 0.17999999999999994 0 10) (mkVec3 0 0 (-1)))
           Fixtures.photoOnRay 3).
  vm_compute. reflexivity.
Defined.

(** The calls of the controller's callback never ask for PHOTO_VIEW. *)
Lemma controller_never_views i st r r' c :
  HandController.useFrame i st r = Some (r', c) ->
  HandController.setAppState c <> Some PHOTO_VIEW.
Proof.
  unfold HandController.useFrame. intros H.
  destruct (negb _); [injection H as <- <-; discriminate |].
  destruct (JS.strict_neq _ _); [| injection H as <- <-; discriminate].
  destruct (HandController.results i) as [| l others].
  - unfold HandController.noHandDetected in H. injection H as <- <-. discriminate.
  - destruct (HandController.classify l) as [g |]; [| discriminate].
    injection H as H. rewrite <- (f_equal snd H : _ = c). intros V.
    destruct (ControllerMore.onVerdict_switch (HandController.camera i) (Some g) _ _ _ _ V)
      as (g' & _ & S).
    destruct (ControllerMore.stateSwitching_inv _ _ _ _ _ _ S)
      as (_ & _ & _ & [(_ & _ & N) | (_ & _ & _ & N)]); discriminate.
Qed.

(** A selection of one of the twelve photos. *)
Definition selects (active : option Z) : Prop :=
  exists i, active = Some i /\ 0 <= i < 12.

(** What a photo view needs: a selected photo. *)
Definition viewing_selects (w : World) : Prop :=
  appState w = PHOTO_VIEW -> selects (activePhotoId w).

Lemma frame_viewing_selects f w w' :
  frame f w = Some w' -> viewing_selects w -> viewing_selects w'.
Proof.
  unfold frame. intros H Inv.
  destruct (HandController.useFrame (hand f) (appState w) (refs w)) as [[r calls] |] eqn:U;
    [| discriminate].
  pose proof (controller_never_views _ _ _ _ _ U) as NV.
  injection H as <-. unfold viewing_selects in *. cbn [appState activePhotoId].
  unfold PhotoCloud.useFrame, PhotoCloud.picking.
  set (ray := lastCall (rayRef w) (HandController.onPinch calls)).
  assert (Keep : orKeep (HandController.setAppState calls) (appState w) = PHOTO_VIEW ->
                 appState w = PHOTO_VIEW).
  { destruct (HandController.setAppState calls) as [a |]; cbn; [congruence | auto]. }
  destruct (mounted f); [| cbn; auto].
  destruct ray as [ry |] eqn:R, (appState w) eqn:S; cbn [PhotoCloud.setAppState
    PhotoCloud.activePhotoId lastCall]; try (intros V; apply Keep in V; discriminate);
    try (intros V; apply Inv; reflexivity).
  all: destruct (PhotoCloud.pick ry _) as [i |] eqn:P;
    cbn [PhotoCloud.setAppState PhotoCloud.activePhotoId lastCall orKeep];
    try (intros V; apply Keep in V; discriminate).
  all: intros _; exists i; split; [reflexivity | exact (pick_below_12 _ _ _ P)].
Qed.

Lemma run_viewing_selects fs : forall w0 w,
  viewing_selects w0 -> run fs w0 = Some w -> viewing_selects w.
Proof.
  induction fs as [| f fs IH]; intros w0 w Inv H; cbn in H.
  - injection H as <-. exact Inv.
  - destruct (frame f w0) as [w1 |] eqn:F; [| discriminate].
    apply (IH w1 w (frame_viewing_selects _ _ _ F Inv) H).
Qed.

(** X12. From startup on, whenever the application is in PHOTO_VIEW one of
    the twelve photos is selected. *)
Theorem photo_view_has_selection fs w :
  run fs initialWorld = Some w ->
  appState w = PHOTO_VIEW ->
  exists i, activePhotoId w = Some i /\ 0 <= i < 12.
Proof.
  intros H. apply (run_viewing_selects fs initialWorld w); [| exact H].
  intros V. discriminate.
Qed.

Lemma photo_view_has_selection_witness :
  exists i,
    activePhotoId
      (mkWorld PHOTO_VIEW HandController.noHand None
               (HandController.mkRefs 60.1 1500 false) (Some 3))
    = Some i /\ 0 <= i < 12.
Proof.
  apply (photo_view_has_selection [Fixtures.pinchFrame; Fixtures.laterFrame]).
  - vm_compute. reflexivity.
  - reflexivity.
Defined.

(** A state asked for by the controller's callback comes with the gesture
    that frame published, on a frame after the cooldown. *)
Lemma useFrame_switch i st r r' c a :
  HandController.useFrame i st r = Some (r', c) ->
  HandController.setAppState c = Some a ->
  exists g,
    HandController.setGesture c = Some g /\ isPinch g = false /\
    HandController.gestureTimeoutRef r < HandController.now i /\
    ((isFist g = true /\ st = CHAOS /\ a = FORMED) \/
     (isFist g = false /\ isOpen g = true /\ st <> CHAOS /\ a = CHAOS)).
Proof.
  unfold HandController.useFrame. intros H V.
  destruct (negb _); [injection H as <- <-; discriminate |].
  destruct (JS.strict_neq _ _); [| injection H as <- <-; discriminate].
  destruct (HandController.results i) as [| l others].
  - unfold HandController.noHandDetected in H. injection H as <- <-. discriminate.
  - destruct (HandController.classify l) as [g |]; [| discriminate].
    injection H as H. rewrite <- (f_equal snd H : _ = c) in *.
    destruct (ControllerMore.onVerdict_switch (HandController.camera i) (Some g) _ _ _ _ V)
      as (g' & E & S).
    injection E as <-.
    destruct (ControllerMore.stateSwitching_inv _ _ _ _ _ _ S) as (Hp & Hnow & _ & Hcase).
    exists g. rewrite FrameFacts.handDetected_setGesture. auto.
Qed.

(** An open hand seen in PHOTO_VIEW after the cooldown: the controller's
    callback asks for CHAOS. *)
Lemma useFrame_open_leaves_view i r l others g :
  HandController.ready i = true ->
  JS.strict_neq (HandController.currentTime i) (HandController.lastVideoTimeRef r) = true ->
  HandController.results i = l :: others ->
  HandController.classify l = Some g ->
  HandController.Open g ->
  HandController.gestureTimeoutRef r < HandController.now i ->
  exists r',
    HandController.useFrame i PHOTO_VIEW r
    = Some (r', HandController.mkCalls (Some g) None (Some CHAOS)).
Proof.
  intros Hready Hnew Hres Hc (Hf & Ho & Hp) Hnow.
  unfold HandController.useFrame. rewrite Hready, Hnew, Hres, Hc. cbn [negb].
  rewrite (ControllerMore.handDetected_idle _ _ _ _ _ Hp).
  unfold HandController.stateSwitching.
  cbn [HandController.gestureTimeoutRef HandController.setLastVideoTime].
  rewrite (proj2 (Z.ltb_lt _ _) Hnow), Hf, Ho, Hp. cbn. eauto.
Qed.

(** X13. While a photo is viewed the selection is pinned: a frame in
    PHOTO_VIEW keeps [activePhotoId] and ends in PHOTO_VIEW or in CHAOS.  It
    ends in CHAOS only if it published an open hand, neither fist nor pinch,
    at a time after the cooldown; and it does end in CHAOS whenever it
    processes a new video frame whose first hand is classified as open at a
    time after the cooldown. *)
Theorem selection_pinned_in_photo_view f w w' :
  frame f w = Some w' ->
  appState w = PHOTO_VIEW ->
  activePhotoId w' = activePhotoId w /\
  (appState w' = PHOTO_VIEW \/
   (appState w' = CHAOS /\
    isFist (gesture w') = false /\ isOpen (gesture w') = true /\
    isPinch (gesture w') = false /\
    HandController.gestureTimeoutRef (refs w) < HandController.now (hand f))) /\
  (forall l others g,
      HandController.ready (hand f) = true ->
      JS.strict_neq (HandController.currentTime (hand f))
                    (HandController.lastVideoTimeRef (refs w)) = true ->
      HandController.results (hand f) = l :: others ->
      HandController.classify l = Some g ->
      HandController.Open g ->
      HandController.gestureTimeoutRef (refs w) < HandController.now (hand f) ->
      appState w' = CHAOS /\ gesture w' = g).
Proof.
  unfold frame. intros H V.
  destruct (HandController.useFrame (hand f) (appState w) (refs w)) as [[r calls] |] eqn:U;
    [| discriminate].
  injection H as <-. cbn [appState activePhotoId gesture].
  assert (O : forall ray,
             PhotoCloud.useFrame (mounted f) (appState w) ray (activePhotoId w) (children f)
             = PhotoCloud.mkOutcome ray (activePhotoId w) None).
  { intros ray. unfold PhotoCloud.useFrame, PhotoCloud.picking. rewrite V.
    destruct (mounted f), ray; reflexivity. }
  rewrite O. cbn [PhotoCloud.activePhotoId PhotoCloud.setAppState lastCall].
  split; [reflexivity |]. split.
  - destruct (HandController.setAppState calls) as [a |] eqn:S; cbn [orKeep]; [| auto].
    destruct (useFrame_switch _ _ _ _ _ _ U S) as (g & G & Hp & Hnow & Hcase).
    rewrite G. cbn [orKeep].
    destruct Hcase as [(_ & C & _) | (Hf & Ho & _ & ->)]; [congruence |].
    right. repeat split; assumption.
  - intros l others g Hready Hnew Hres Hc Hopen Hnow.
    rewrite V in U.
    destruct (useFrame_open_leaves_view _ _ _ _ _ Hready Hnew Hres Hc Hopen Hnow) as [r0 E].
    rewrite E in U. injection U as <- <-. split; reflexivity.
Qed.

Lemma selection_pinned_in_photo_view_witness :
  activePhotoId
    (mkWorld CHAOS (mkGesture false true false (mkVec2 0.5 0.59999999999999998)) None
             (HandController.mkRefs 1.1 3000 false) (Some 7))
  = activePhotoId Fixtures.viewing /\
  appState
    (mkWorld CHAOS (mkGesture false true false (mkVec2 0.5 0.59999999999999998)) None
             (HandController.mkRefs 1.1 3000 false) (Some 7)) = CHAOS /\
  gesture
    (mkWorld CHAOS (mkGesture false true false (mkVec2 0.5 0.59999999999999998)) None
             (HandController.mkRefs 1.1 3000 false) (Some 7))
  = mkGesture false true false (mkVec2 0.5 0.59999999999999998).
Proof.
  destruct (selection_pinned_in_photo_view Fixtures.openToLeave Fixtures.viewing
              (mkWorld CHAOS (mkGesture false true false (mkVec2 0.5 0.59999999999999998))
                       None (HandController.mkRefs 1.1 3000 false) (Some 7)))
    as (A & _ & K).
  - vm_compute. reflexivity.
  - reflexivity.
  - split; [exact A |].
    apply (K Fixtures.openHand []
             (mkGesture false true false (mkVec2 0.5 0.59999999999999998))).
    + reflexivity.
    + vm_compute. reflexivity.
    + reflexivity.
    + vm_compute. reflexivity.
    + repeat split.
    + vm_compute. reflexivity.
Defined.

Lemma photo_of_id i :
  0 <= i < 12 ->
  filter (fun k => (Z.of_nat k =? i)%Z) PhotoCloud.photos = [Z.to_nat i].
Proof.
  intros H.
  assert (C : i = 0 \/ i = 1 \/ i = 2 \/ i = 3 \/ i = 4 \/ i = 5 \/ i = 6 \/ i = 7 \/
              i = 8 \/ i = 9 \/ i = 10 \/ i = 11) by lia.
  repeat (destruct C as [-> | C]; [reflexivity |]). subst i. reflexivity.
Qed.

(** X14. From startup on, whenever the application is in PHOTO_VIEW exactly
    one of the twelve photos is brought in front of the camera, the selected
    one; its scale goes to 3.0 * 1.2 and the scale of every other photo to
    1.0 * 1.2. *)
Theorem one_photo_in_front fs w :
  run fs initialWorld = Some w ->
  appState w = PHOTO_VIEW ->
  exists k,
    activePhotoId w = Some (Z.of_nat k) /\
    filter (PhotoView.inFront (appState w) (activePhotoId w)) PhotoCloud.photos = [k] /\
    PhotoView.targetScale (appState w) (activePhotoId w) k = (3.0 * 1.2)%float /\
    forall j, j <> k ->
      PhotoView.targetScale (appState w) (activePhotoId w) j = (1.0 * 1.2)%float.
Proof.
  intros H V.
  assert (Inv : viewing_selects w).
  { apply (run_viewing_selects fs initialWorld w); [intros D; discriminate | exact H]. }
  destruct (Inv V) as (i & A & Hi). exists (Z.to_nat i).
  rewrite A, V, Z2Nat.id by lia. split; [reflexivity |].
  unfold PhotoView.targetScale, PhotoView.scale, PhotoView.inFront.
  split; [apply (photo_of_id i Hi) |].
  split.
  - rewrite Z2Nat.id, Z.eqb_refl by lia. reflexivity.
  - intros j N. destruct (Z.eqb_spec (Z.of_nat j) i) as [E | _]; [| reflexivity].
    exfalso. apply N. rewrite <- E. symmetry. apply Nat2Z.id.
Qed.

Lemma one_photo_in_front_witness :
  exists k,
    Some 3 = Some (Z.of_nat k) /\
    filter (PhotoView.inFront PHOTO_VIEW (Some 3)) PhotoCloud.photos = [k] /\
    PhotoView.targetScale PHOTO_VIEW (Some 3) k = (3.0 * 1.2)%float /\
    forall j, j <> k -> PhotoView.targetScale PHOTO_VIEW (Some 3) j = (1.0 * 1.2)%float.
Proof.
  apply (one_photo_in_front [Fixtures.pinchFrame; Fixtures.laterFrame]
           (mkWorld PHOTO_VIEW HandController.noHand None
                    (HandController.mkRefs 60.1 1500 false) (Some 3))).
  - vm_compute. reflexivity.
  - reflexivity.
Defined.

End SceneMore.

(** ** The ornaments *)
Module OrnamentFacts.
Import Constants Ornaments FloatOrderFacts FloatNumberFacts.

Definition sameKey (a b : Key) : bool :=
  match a, b with
  | goldBalls, goldBalls | redBalls, redBalls | goldBoxes, goldBoxes => true
  | _, _ => false
  end.

Lemma push_sameKey key it items k :
  push key it items k = if sameKey key k then items k ++ [it] else items k.
Proof. destruct key, k; reflexivity. Qed.

(** Each array of [items] holds the objects of the turns that chose its
    key, in the order of the turns. *)
Lemma generate_filter random cos sin n k :
  generate random cos sin n k
  = map (item random cos sin) (filter (fun i => sameKey (typeKey random i) k) (seq 0 n)).
Proof.
  induction n as [| n IH]; [reflexivity |].
  cbn [generate]. rewrite push_sameKey, seq_S, filter_app, map_app, IH. cbn.
  destruct (sameKey (typeKey random n) k); cbn; [reflexivity | rewrite app_nil_r; reflexivity].
Qed.

Lemma generate_count random cos sin n :
  length (generate random cos sin n goldBalls)
  + length (generate random cos sin n redBalls)
  + length (generate random cos sin n goldBoxes) = n.
Proof.
  induction n as [| n IH]; [reflexivity |].
  cbn [generate]. rewrite !push_sameKey.
  destruct (typeKey random n); cbn [sameKey]; rewrite length_app; cbn [length]; lia.
Qed.

(** X15. Whatever the random draws, the three arrays of [data] hold 300
    ornaments together, and the ids in each array are, in increasing order,
    exactly the turns of the loop whose draws chose that array. *)
Theorem ornaments_partition random cos sin :
  length (data random cos sin goldBalls) + length (data random cos sin redBalls)
  + length (data random cos sin goldBoxes) = 300 /\
  forall k,
    map id (data random cos sin k)
    = filter (fun i => sameKey (typeKey random i) k) (seq 0 300).
Proof.
  split; [apply generate_count |].
  intros k. unfold data. rewrite generate_filter, map_map. apply map_id.
Qed.

(** X16. The balls are sorted by colour, the boxes are not: every item of
    [goldBalls] is a gold ball, every item of [redBalls] a red ball, and
    [goldBoxes] holds every box, with the colour GOLD or RED of its draw. *)
Theorem ornaments_by_key random cos sin (d : OrnamentData) :
  (In d (data random cos sin goldBalls) -> type d = ball /\ color d = GOLD) /\
  (In d (data random cos sin redBalls) -> type d = ball /\ color d = RED) /\
  (In d (data random cos sin goldBoxes) ->
     type d = box /\ color d = (if isGold random (id d) then GOLD else RED)) /\
  (type d = box -> forall k, In d (data random cos sin k) -> k = goldBoxes).
Proof.
  unfold data.
  assert (M : forall k, In d (generate random cos sin ORNAMENT_COUNT k) ->
                exists i, d = item random cos sin i /\ typeKey random i = k).
  { intros k. rewrite generate_filter, in_map_iff.
    intros (i & <- & Hi). apply filter_In in Hi. destruct Hi as [_ Hk].
    exists i. split; [reflexivity |]. destruct (typeKey random i), k; (reflexivity || discriminate). }
  split; [| split; [| split]].
  1-3: intros H; apply M in H; destruct H as (i & -> & K); unfold typeKey in K;
    unfold item; cbn [type color id];
    destruct (isBox random i), (isGold random i); try discriminate; split; reflexivity.
  intros B k H. apply M in H. destruct H as (i & -> & K).
  unfold item in B. cbn [type] in B.
  unfold typeKey in K. destruct (isBox random i); [congruence | discriminate].
Qed.

Lemma get_sign_0 : get_sign 0 = false.
Proof. reflexivity. Qed.

Lemma get_sign_1 : get_sign 1 = false.
Proof. reflexivity. Qed.

(** The clamp to [0, 1] of a number. *)
Lemma clamp_unit v :
  (v =? v)%float = true ->
  (0 <=? JSMath.clamp v 0 1)%float = true /\ (JSMath.clamp v 0 1 <=? 1)%float = true.
Proof.
  intros Hv. unfold JSMath.clamp.
  assert (Hm : exists m, JSMath.min 1 v = m /\ (m =? m)%float = true /\ (m <=? 1)%float = true).
  { unfold JSMath.min, is_nan. rewrite Hv. cbn [negb orb].
    replace (1 =? 1)%float with true by reflexivity. cbn [negb orb].
    destruct (1 <? v)%float eqn:A; [exists 1%float; repeat split |].
    assert (L : (v <=? 1)%float = true) by (apply not_ltb_leb; auto).
    destruct (v <? 1)%float; [eauto |]. rewrite get_sign_1. eauto. }
  destruct Hm as (m & -> & Hm & Hle).
  unfold JSMath.max, is_nan. rewrite Hm.
  replace (0 =? 0)%float with true by reflexivity. cbn [negb orb].
  destruct (0 <? m)%float eqn:A.
  - split; [apply ltb_leb, A | exact Hle].
  - destruct (m <? 0)%float; [split; reflexivity |].
    rewrite get_sign_0. split; reflexivity.
Qed.

(** X17. The step of an ornament towards its target is never negative and
    never past the target: when [delta * speed] is a number, [lerpFactor] is
    at least 0 and at most 1. *)
Theorem lerpFactor_in_unit_interval (delta : float) (it : OrnamentData) :
  (delta * speed it =? delta * speed it)%float = true ->
  (0 <=? lerpFactor delta it)%float = true /\ (lerpFactor delta it <=? 1)%float = true.
Proof. intros H. unfold lerpFactor. apply clamp_unit, H. Qed.

(** An ornament of a sample draw: every call of [Math.random] gives 0.5. *)
Definition sampleBall : OrnamentData :=
  item (fun _ => 0.5%float) (fun a => a) (fun a => a) 0.

Lemma lerpFactor_in_unit_interval_witness :
  lerpFactor 0.016 sampleBall = 0.24%float /\
  (0 <=? lerpFactor 0.016 sampleBall)%float = true /\
  (lerpFactor 0.016 sampleBall <=? 1)%float = true.
Proof.
  split; [vm_compute; reflexivity |].
  apply (lerpFactor_in_unit_interval 0.016 sampleBall). vm_compute. reflexivity.
Defined.

End OrnamentFacts.

(** ** Edge cases of the classifier and of the picker *)
Module EdgeFacts.
Import HandController.

(** Reading landmark 20 fails on a short hand. *)
Lemma short_hand_fails (l : Landmarks) :
  length l < 21 -> classify l = None.
Proof.
  intros H.
  assert (P : pinkyRatio l = None).
  { unfold pinkyRatio, getRatio, getDist, at_.
    destruct (nth_error l 0); [| reflexivity].
    rewrite (proj2 (nth_error_None l 20)) by lia. reflexivity. }
  unfold classify, avgRatio. rewrite P.
  destruct (indexRatio l); [| reflexivity].
  destruct (middleRatio l); [| reflexivity].
  destruct (ringRatio l); reflexivity.
Qed.

Lemma long_hand_classified (l : Landmarks) :
  21 <= length l -> exists g, classify l = Some g.
Proof.
  intros H.
  do 21 (destruct l as [| ? l]; [cbn in H; lia |]).
  unfold classify.
  cbv [avgRatio nonIndexRatio isPinchCandidate spreadFactor indexRatio middleRatio
       ringRatio pinkyRatio getRatio getDist pinchDist palmWidth spreadWidth span
       at_ nth_error rawPosition].
  match goal with
  | |- context [flags ?a ?n ?s ?c] => destruct (flags a n s c) as [[fist pinch] open]
  end.
  match goal with
  | |- context [if ?b then Some ?u else Some ?w] => destruct b
  end; eauto.
Qed.

(** X18. The classifier raises an exception exactly on a hand with fewer
    than 21 landmarks, and landmarks past the 21st are ignored: every hand
    is classified as its first 21 landmarks are. *)
Theorem classify_fails_iff_short (l : Landmarks) :
  (classify l = None <-> length l < 21) /\
  classify l = classify (firstn 21 l).
Proof.
  split.
  - split.
    + intros H. destruct (Nat.lt_ge_cases (length l) 21) as [S | L]; [exact S |].
      destruct (long_hand_classified l L) as [g E]. congruence.
    + apply short_hand_fails.
  - destruct (Nat.lt_ge_cases (length l) 21) as [S | L].
    + rewrite firstn_all2 by lia. reflexivity.
    + do 21 (destruct l as [| ? l]; [cbn in L; lia |]). reflexivity.
Qed.

(** A candidate beyond the threshold leaves the scan as it is. *)
Lemma visit_far ray acc c :
  (PhotoCloud.distSq ray c <? 5.0)%float = false -> PhotoCloud.visit ray acc c = acc.
Proof. intros H. unfold PhotoCloud.visit. rewrite H. reflexivity. Qed.

Lemma scan_filter ray cs : forall acc,
  fold_left (PhotoCloud.visit ray) cs acc
  = fold_left (PhotoCloud.visit ray)
              (filter (fun c => (PhotoCloud.distSq ray c <? 5.0)%float) cs) acc.
Proof.
  induction cs as [| c cs IH]; intros acc; [reflexivity |].
  cbn [fold_left filter].
  destruct (PhotoCloud.distSq ray c <? 5.0)%float eqn:N.
  - cbn [fold_left]. apply IH.
  - rewrite (visit_far _ _ _ N). apply IH.
Qed.

(** X19. Candidates whose squared distance to the ray is not below 5.0
    (5.0 or more, or NaN) have no part in the selection: the picker returns
    the same with them removed. *)
Theorem pick_ignores_far_candidates (ray : Ray) (cs : list PhotoCloud.Candidate) :
  PhotoCloud.pick ray cs
  = PhotoCloud.pick ray (filter (fun c => (PhotoCloud.distSq ray c <? 5.0)%float) cs).
Proof.
  unfold PhotoCloud.pick, PhotoCloud.closestId, PhotoCloud.scan.
  rewrite (scan_filter ray cs). reflexivity.
Qed.

End EdgeFacts.
